(** * Mandelbrot: escape-time kernel, region sampler and viewport controller

    A shallow embedding of [service/mandelbrotops.py], [threads/guiworker.py]
    and the navigation logic of [gui/gui.py].

    The Python code computes on [float] and [complex] values.  The embedding
    is written once, over an interface [Arith] that lists the operations the
    code uses, and is read in two arithmetics:

    - [binary64]: IEEE 754 double precision, which is what a Python [float]
      is; every definition evaluates there;
    - [exact]: the real numbers, the arithmetic without rounding.

    Statements that only depend on the control flow or on the shape of the
    formulas are proved for every arithmetic.  Statements that need the
    arithmetic to be exact are proved for [exact], with an evaluation on
    [binary64] that shows where rounding or overflow breaks them.

    The functions of other libraries the code calls ([math.hypot] behind
    [abs] of a complex number, [np.linspace]) are parameters.

    - C1  [mandelbrot_escape_time]
    - C2  [mandelbrot_set_grid], [mandelbrot_set_single_sample_axis]
    - C3  [viewport_invariant], [viewport_order_lost_binary64]
    - C4  [zoomlevel_counts_zoom_ins], [zoomlevel_claim_fails]
    - C5  [request_dropped_while_processing]
    - C6  [navigate_recenters_viewport]
    - C7  [zoom_in_shrinks_around_center]
    - C8  [zoom_in_then_out_exact], [zoom_round_trip_not_close_binary64]
    - C9  [reset_restores_startup_bounds]
    - C10 [mandelbrot_below_maxiter] *)

From Stdlib Require Import String ZArith List Bool Lia.
From Stdlib Require Import Reals Lra.
From Stdlib Require Import Floats.
Import ListNotations.

Set Implicit Arguments.
Open Scope Z_scope.

(** ** The arithmetic the code computes with *)

Class Arith (F : Type) : Type := {
  of_int : Z -> F;          (* an [int] used where a [float] is expected *)
  add : F -> F -> F;
  sub : F -> F -> F;
  mul : F -> F -> F;
  div : F -> F -> F;        (* the quotient, for a divisor that is not zero *)
  eqb : F -> F -> bool;
  ltb : F -> F -> bool;
  fabs : F -> F
}.

(** Python's [a / b] raises [ZeroDivisionError] when [b == 0], for floats as
    for ints. *)
Definition truediv {F : Type} {A : Arith F} (a b : F) : option F :=
  if eqb b (of_int 0) then None else Some (div a b).

(** [a > b] *)
Definition gtb {F : Type} {A : Arith F} (a b : F) : bool := ltb b a.

(** *** IEEE 754 binary64 *)

(** [float(n)]: the double nearest to the integer [n] (ties to even), for
    the integers [float] accepts, those below [2^1024] in absolute value. *)
Definition float_of_int (n : Z) : float :=
  SF2Prim (binary_normalize prec emax n 0 false).

#[export] Instance binary64 : Arith float := {
  of_int := float_of_int;
  add := PrimFloat.add;
  sub := PrimFloat.sub;
  mul := PrimFloat.mul;
  div := PrimFloat.div;
  eqb := PrimFloat.eqb;
  ltb := PrimFloat.ltb;
  fabs := PrimFloat.abs
}.

(** *** Exact real arithmetic *)

Definition Reqb (a b : R) : bool := if Req_dec_T a b then true else false.
Definition Rltb (a b : R) : bool := if Rlt_dec a b then true else false.

#[export] Instance exact : Arith R := {
  of_int := IZR;
  add := Rplus;
  sub := Rminus;
  mul := Rmult;
  div := Rdiv;
  eqb := Reqb;
  ltb := Rltb;
  fabs := Rabs
}.

(** [math.hypot] is the C library's; in exact arithmetic it is the Euclidean
    norm. *)
Definition Rhypot (x y : R) : R := R_sqrt.sqrt (x * x + y * y)%R.

(** ** service/mandelbrotops.py *)

Module MandelbrotOps.

Section Ops.

Context {F : Type} {A : Arith F}.

(** [abs] of a complex number is [hypot(real, imag)], a function of the C
    library: it is a parameter of the kernel. *)
Variable hypot : F -> F -> F.

(** [np.linspace(start, stop, num)], a function of NumPy: a parameter of the
    sampler. *)
Variable linspace : F -> F -> Z -> list F.

Record complex : Type := Complex { real : F; imag : F }.

Definition cadd (a b : complex) : complex :=
  Complex (add (real a) (real b)) (add (imag a) (imag b)).

Definition cmul (a b : complex) : complex :=
  Complex (sub (mul (real a) (real b)) (mul (imag a) (imag b)))
          (add (mul (real a) (imag b)) (mul (imag a) (real b))).

Definition cabs (z : complex) : F := hypot (real z) (imag z).

(** A [float] used where a [complex] is expected. *)
Definition of_float (x : F) : complex := Complex x (of_int 0).

(** The literal [1j]. *)
Definition j : complex := Complex (of_int 0) (of_int 1).

(** The loop of [mandelbrot]: [fuel] iterations of [range(maxiter)] remain,
    [n] is the loop variable. *)
Fixpoint mandelbrot_loop (fuel : nat) (n : Z) (z c : complex) (horizon : F) : Z :=
  match fuel with
  | O => 0
  | S fuel' =>
      if gtb (cabs z) horizon then n
      else mandelbrot_loop fuel' (n + 1) (cadd (cmul z z) c) c horizon
  end.

Definition mandelbrot (c : complex) (maxiter : Z) (horizon : F) : Z :=
  mandelbrot_loop (Z.to_nat maxiter) 0 c c horizon.

(** The default value of [horizon]. *)
Definition default_horizon : F := of_int 2.

(** The sample grid [n3]: [width] rows of [height] cells.  The cells hold the
    iteration counts (NumPy stores them as floats of the same value). *)
Definition grid : Type := list (list Z).

(** The point [r1[i] + 1j * r2[j]]. *)
Definition point (x y : F) : complex := cadd (of_float x) (cmul j (of_float y)).

(** [np.linspace] and [np.empty] refuse a negative size.  [r1[i]] and [r2[j]]
    are inside the axes, because [np.linspace(_, _, num)] has [num] entries. *)
Definition mandelbrot_set (xmin xmax ymin ymax : F) (width height maxiter : Z)
  : option grid :=
  if (width <? 0) || (height <? 0) then None
  else
    let r1 := linspace xmin xmax width in
    let r2 := linspace ymin ymax height in
    Some (map (fun i =>
                 map (fun j =>
                        mandelbrot (point (nth i r1 (of_int 0)) (nth j r2 (of_int 0)))
                                   maxiter default_horizon)
                     (seq 0 (Z.to_nat height)))
              (seq 0 (Z.to_nat width))).

Definition mandelbrot_set_for_image (xmin xmax ymin ymax : F)
  (width height maxiter dpi : Z) : option grid :=
  let img_width := dpi * width in
  let img_height := dpi * height in
  mandelbrot_set xmin xmax ymin ymax img_width img_height maxiter.

(** The tick labels [mandelbrot_image] computes when [display_ticks] is set.
    [ticks] is [np.arange(0, img_width, 3 * dpi)], a NumPy array of
    integers; the arithmetic on it is NumPy's, element by element, where a
    division by zero gives an infinity or a NaN and raises nothing.  Both
    lists are divided by [img_width]. *)
Definition mandelbrot_image_ticks (xmin xmax ymin ymax : F) (width dpi : Z)
  (ticks : list Z) : list F * list F :=
  let img_width := dpi * width in
  let x_ticks :=
    map (fun t => add xmin (div (mul (sub xmax xmin) (of_int t)) (of_int img_width)))
        ticks in
  let y_ticks :=
    map (fun t => add ymin (div (mul (sub ymax ymin) (of_int t)) (of_int img_width)))
        ticks in
  (x_ticks, y_ticks).

(** *** The orbit, in the words of the specification

    [orbit c k] is the [k]-th point of the orbit of [c] under [z <- z*z + c],
    seeded with [z0 = c]; [escaped z horizon] says [|z| > horizon]. *)
Fixpoint orbit (c : complex) (k : nat) : complex :=
  match k with
  | O => c
  | S k' => cadd (cmul (orbit c k') (orbit c k')) c
  end.

Definition escaped (z : complex) (horizon : F) : bool := gtb (cabs z) horizon.

End Ops.

Arguments complex F : clear implicits.

End MandelbrotOps.

(** ** threads/guiworker.py *)

Module GUIWorker.

Section Worker.

Context {F : Type} {A : Arith F}.
Variable hypot : F -> F -> F.
Variable linspace : F -> F -> Z -> list F.

(** The arguments a worker thread is created with: a snapshot of the
    viewport and of the resolution, taken when the pass is started. *)
Record worker : Type := Worker {
  xmin : F; xmax : F;
  ymin : F; ymax : F;
  width : Z; height : Z;
  maxiter : Z;
  dpi : Z
}.

(** What [run] hands to the callback (the two timestamps are left out). *)
Definition run (w : worker) : option MandelbrotOps.grid :=
  MandelbrotOps.mandelbrot_set_for_image hypot linspace
    (xmin w) (xmax w) (ymin w) (ymax w)
    (width w) (height w) (maxiter w) (dpi w).

End Worker.

Arguments worker F : clear implicits.

End GUIWorker.

(** ** gui/gui.py *)

Module MandelbrotGUI.

Section GUI.

Context {F : Type} {A : Arith F}.

(** The attributes of [MandelbrotGUI] that the navigation code reads or
    writes.  The widgets ([fig], [canvas], the status text) and the rendering
    settings ([cmap], [gamma], the axes flags) are left out. *)
Record gui : Type := GUI {
  xmin : F; xmax : F;
  ymin : F; ymax : F;
  width : Z; height : Z;
  maxiter : Z;
  dpi : Z;
  processing : bool;
  curr_zoomlvl : Z;
  zoomfactor_in : F;
  zoomfactor_out : F;
  currdata : F * F * F * F;
  cd_width : F;
  cd_height : F;
  mset : option MandelbrotOps.grid
}.

(** [data[0]] ... [data[3]] of a 4-tuple. *)
Definition item0 (d : F * F * F * F) : F := let '(a, _, _, _) := d in a.
Definition item1 (d : F * F * F * F) : F := let '(_, b, _, _) := d in b.
Definition item2 (d : F * F * F * F) : F := let '(_, _, c, _) := d in c.
Definition item3 (d : F * F * F * F) : F := let '(_, _, _, e) := d in e.

(** Assignments to the attributes that change after [__init__]. *)
Definition set_processing (g : gui) (b : bool) : gui :=
  GUI (xmin g) (xmax g) (ymin g) (ymax g) (width g) (height g) (maxiter g) (dpi g)
      b (curr_zoomlvl g) (zoomfactor_in g) (zoomfactor_out g)
      (currdata g) (cd_width g) (cd_height g) (mset g).

Definition set_curr_zoomlvl (g : gui) (z : Z) : gui :=
  GUI (xmin g) (xmax g) (ymin g) (ymax g) (width g) (height g) (maxiter g) (dpi g)
      (processing g) z (zoomfactor_in g) (zoomfactor_out g)
      (currdata g) (cd_width g) (cd_height g) (mset g).

Definition set_currdata (g : gui) (data : F * F * F * F) : gui :=
  GUI (xmin g) (xmax g) (ymin g) (ymax g) (width g) (height g) (maxiter g) (dpi g)
      (processing g) (curr_zoomlvl g) (zoomfactor_in g) (zoomfactor_out g)
      data (cd_width g) (cd_height g) (mset g).

Definition set_cd_width_height (g : gui) (w h : F) : gui :=
  GUI (xmin g) (xmax g) (ymin g) (ymax g) (width g) (height g) (maxiter g) (dpi g)
      (processing g) (curr_zoomlvl g) (zoomfactor_in g) (zoomfactor_out g)
      (currdata g) w h (mset g).

Definition set_mset (g : gui) (m : MandelbrotOps.grid) : gui :=
  GUI (xmin g) (xmax g) (ymin g) (ymax g) (width g) (height g) (maxiter g) (dpi g)
      (processing g) (curr_zoomlvl g) (zoomfactor_in g) (zoomfactor_out g)
      (currdata g) (cd_width g) (cd_height g) (Some m).

Definition _calc_cd_wh (g : gui) : gui :=
  set_cd_width_height g
    (fabs (sub (item0 (currdata g)) (item2 (currdata g))))
    (fabs (sub (item1 (currdata g)) (item3 (currdata g)))).

Definition _set_currdata_d (g : gui) (data : F * F * F * F) : gui :=
  _calc_cd_wh (set_currdata g data).

Definition _set_currdata (g : gui) (xmin ymin xmax ymax : F) : gui :=
  _calc_cd_wh (_set_currdata_d g (xmin, ymin, xmax, ymax)).

(** [1 / zoomfactor] raises when [zoomfactor == 0]: there is no object then.
    [currdata], [cd_width] and [cd_height] do not exist before the call of
    [_set_currdata], which assigns them; the record needs some value there. *)
Definition __init__ (xmin xmax ymin ymax : F) (width height maxiter dpi : Z)
  (zoomfactor : F) : option gui :=
  match truediv (of_int 1) zoomfactor with
  | None => None
  | Some zoomfactor_out =>
      Some (_set_currdata
              (GUI xmin xmax ymin ymax width height maxiter dpi
                   false 0 zoomfactor zoomfactor_out
                   (xmin, ymin, xmax, ymax) (of_int 0) (of_int 0) None)
              xmin ymin xmax ymax)
  end.

(** [_calc_mandelbrot] creates a worker thread from the current viewport and
    starts it; the object itself is not changed. *)
Definition _calc_mandelbrot (g : gui) : GUIWorker.worker F :=
  GUIWorker.Worker
    (item0 (currdata g)) (item2 (currdata g))
    (item1 (currdata g)) (item3 (currdata g))
    (width g) (height g) (maxiter g) (dpi g).

(** The worker's callback, run to its end: the grid is kept and drawn, and
    the last statement clears [processing].  The drawing calls in between
    are matplotlib's; with [show_axes] set they take the tick labels of
    [_callback_ticks].  A callback that one of them leaves by an exception
    does not reach the last statement. *)
Definition _calc_mandelbrot_callback (g : gui) (m : MandelbrotOps.grid) : gui :=
  set_processing (set_mset g m) false.

(** The tick labels [_calc_mandelbrot_callback] computes when [show_axes] is
    set and [show_orig_axes] is not: [ticks] is
    [np.arange(0, self.img_width, 3 * self.dpi)], with
    [self.img_width = dpi * self.width]; the arithmetic is NumPy's, element
    by element.  Both lists are divided by [img_width]. *)
Definition _callback_ticks (g : gui) (ticks : list Z) : list F * list F :=
  let img_width := dpi g * width g in
  let tmp_x := sub (item2 (currdata g)) (item0 (currdata g)) in
  let x_ticks :=
    map (fun t => add (item0 (currdata g))
                      (div (mul tmp_x (of_int t)) (of_int img_width)))
        ticks in
  let tmp_y := sub (item3 (currdata g)) (item1 (currdata g)) in
  let y_ticks :=
    map (fun t => add (item1 (currdata g))
                      (div (mul tmp_y (of_int t)) (of_int img_width)))
        ticks in
  (x_ticks, y_ticks).

(** The two quotients are taken by the pixel sizes [width * dpi] and
    [height * dpi].  For a pixel size of zero the division of a Python
    [float] raises [ZeroDivisionError], and the result is [None]; a
    [numpy.float64], which is what a matplotlib event carries as [xdata] and
    [ydata], gives an infinity or a NaN there and raises nothing.  The
    statements about the point a click selects take pixel sizes that are not
    zero, where the two agree. *)
Definition _transform_coords (g : gui) (coords : F * F) : option (F * F) :=
  let '(x1, y1, w1, h1) :=
    (of_int 0, of_int 0, of_int (width g * dpi g), of_int (height g * dpi g)) in
  let '(x2, y2, w2, h2) :=
    (item0 (currdata g), item1 (currdata g), cd_width g, cd_height g) in
  match truediv (sub (fst coords) x1) w1 with
  | None => None
  | Some qx =>
      let x_new := add (mul qx w2) x2 in
      match truediv (sub (snd coords) y1) h1 with
      | None => None
      | Some qy =>
          let y_new := add (mul qy h2) y2 in
          Some (x_new, y_new)
      end
  end.

Definition _calc_new_coordinates_around (g : gui) (coords : F * F)
  : F * F * F * F :=
  let xmin_new := sub (fst coords) (div (cd_width g) (of_int 2)) in
  let ymin_new := sub (snd coords) (div (cd_height g) (of_int 2)) in
  let xmax_new := add xmin_new (cd_width g) in
  let ymax_new := add ymin_new (cd_height g) in
  (xmin_new, ymin_new, xmax_new, ymax_new).

Definition _apply_zoomin (g : gui) : gui :=
  let mid := (add (item0 (currdata g)) (div (cd_width g) (of_int 2)),
              add (item1 (currdata g)) (div (cd_height g) (of_int 2))) in
  let wval := mul (div (cd_width g) (of_int 2)) (zoomfactor_in g) in
  let hval := mul (div (cd_height g) (of_int 2)) (zoomfactor_in g) in
  _set_currdata g (sub (fst mid) wval) (sub (snd mid) hval)
                  (add (fst mid) wval) (add (snd mid) hval).

Definition _apply_zoomout (g : gui) : gui :=
  let mid := (add (item0 (currdata g)) (div (cd_width g) (of_int 2)),
              add (item1 (currdata g)) (div (cd_height g) (of_int 2))) in
  let wval := mul (div (cd_width g) (of_int 2)) (zoomfactor_out g) in
  let hval := mul (div (cd_height g) (of_int 2)) (zoomfactor_out g) in
  _set_currdata g (sub (fst mid) wval) (sub (snd mid) hval)
                  (add (fst mid) wval) (add (snd mid) hval).

(** What a handler leaves behind: the object after the call and the worker
    threads it started, or the object at the point where an exception left
    the handler (the event loop reports it and goes on). *)
Inductive outcome : Type :=
| Returned (g : gui) (started : list (GUIWorker.worker F))
| Raised (g : gui).

Definition state_of (o : outcome) : gui :=
  match o with
  | Returned g _ => g
  | Raised g => g
  end.

Definition started_by (o : outcome) : list (GUIWorker.worker F) :=
  match o with
  | Returned _ ws => ws
  | Raised _ => []
  end.

(** [inaxes] is [None] when the pointer is outside the plot, and else carries
    [(event.xdata, event.ydata)]. *)
Definition _button_mouse1_released (g : gui) (inaxes : option (F * F)) : outcome :=
  if negb (processing g) then
    match inaxes with
    | Some xydata =>
        let g := set_processing g true in
        match _transform_coords g xydata with
        | None => Raised g
        | Some trans_coords =>
            let new_coords := _calc_new_coordinates_around g trans_coords in
            let g := _set_currdata_d g new_coords in
            Returned g [_calc_mandelbrot g]
        end
    | None => Returned g []
    end
  else Returned g [].

Definition _button_mouse3_released (g : gui) : outcome :=
  if negb (processing g) then
    let g := set_processing g true in
    let g := _set_currdata g (xmin g) (ymin g) (xmax g) (ymax g) in
    let g := set_curr_zoomlvl g 0 in
    Returned g [_calc_mandelbrot g]
  else Returned g [].

Definition _button_mousescrollup (g : gui) : outcome :=
  if negb (processing g) then
    let g := set_processing g true in
    let g := _apply_zoomout g in
    let g := set_curr_zoomlvl g (curr_zoomlvl g - 1) in
    Returned g [_calc_mandelbrot g]
  else Returned g [].

Definition _button_mousescrolldown (g : gui) : outcome :=
  if negb (processing g) then
    let g := set_processing g true in
    let g := _apply_zoomin g in
    let g := set_curr_zoomlvl g (curr_zoomlvl g + 1) in
    Returned g [_calc_mandelbrot g]
  else Returned g [].

(** [event.button]: a mouse button number, or ['up'] / ['down'] for the
    wheel. *)
Inductive button : Type :=
| Mouse (n : Z)
| Up
| Down.

Definition _button_released (g : gui) (b : button) (inaxes : option (F * F))
  : outcome :=
  match b with
  | Mouse 1 => _button_mouse1_released g inaxes
  | Mouse 3 => _button_mouse3_released g
  | Up => _button_mousescrollup g
  | Down => _button_mousescrolldown g
  | Mouse _ => Returned g []
  end.

Definition _key_released (g : gui) (key : string) : outcome :=
  if String.eqb key "+" then _button_mousescrolldown g
  else if String.eqb key "-" then _button_mousescrollup g
  else Returned g [].

(** [_initgui] starts the first pass; [processing] is not set for it. *)
Definition _initgui (g : gui) : outcome := Returned g [_calc_mandelbrot g].

(** *** The event loop

    What reaches the object once it is displayed: button releases and wheel
    events (both bound to [_button_released]), key releases, and the
    callback of a worker thread, run to its end. *)
Inductive event : Type :=
| ButtonEvent (b : button) (inaxes : option (F * F))
| KeyEvent (key : string)
| WorkerDone (m : MandelbrotOps.grid).

Definition handle (g : gui) (ev : event) : outcome :=
  match ev with
  | ButtonEvent b inaxes => _button_released g b inaxes
  | KeyEvent key => _key_released g key
  | WorkerDone m => Returned (_calc_mandelbrot_callback g m) []
  end.

Fixpoint run (g : gui) (evs : list event) : gui :=
  match evs with
  | [] => g
  | ev :: evs' => run (state_of (handle g ev)) evs'
  end.

(** The four navigation requests of the specification, as events. *)
Definition navigateTo (screenPoint : F * F) : event :=
  ButtonEvent (Mouse 1) (Some screenPoint).
Definition resetView : event := ButtonEvent (Mouse 3) None.
Definition zoomIn : event := ButtonEvent Down None.
Definition zoomOut : event := ButtonEvent Up None.

End GUI.

Arguments gui F : clear implicits.
Arguments outcome F : clear implicits.
Arguments event F : clear implicits.

End MandelbrotGUI.

(** ** i18n/translations.py *)

Module Translations.

(** The dictionary [_translations], in the order it is written. *)
Definition _translations : list (string * string) :=
  [("APP.TITLE", "Mandelbrot");
   ("APP.STATUS", "Status: {}");
   ("APP.CURRZOOMLVL", "Current zoom level: {}");
   ("APP.HELP",
    "Left mouse = Move, right mouse = Reset, mouse wheel or +/- keys = zoom in/out");
   ("STATUS.PROCESSING", "Processing...");
   ("STATUS.PROCESSING_DONE", "Done processing in {:4.4f} seconds.")]%string.

(** [d[key]]: [None] stands for [KeyError]. *)
Fixpoint subscript (d : list (string * string)) (key : string) : option string :=
  match d with
  | [] => None
  | (k, v) :: d' => if String.eqb k key then Some v else subscript d' key
  end.

(** [get]: the [KeyError] is caught (and logged) and the default returned. *)
Definition get (key : string) (default : string) : string :=
  match subscript _translations key with
  | Some v => v
  | None => default
  end.

(** The default value of [default], the empty string. *)
Definition default_default : string := EmptyString.

(** The keys [gui.py] asks for, in [_calc_mandelbrot_callback],
    [_calc_mandelbrot], [_update_text_status], [_create_canvas] and
    [_configureproperties]. *)
Definition gui_keys : list string :=
  ["STATUS.PROCESSING_DONE"; "STATUS.PROCESSING"; "APP.CURRZOOMLVL";
   "APP.HELP"; "APP.STATUS"; "APP.TITLE"]%string.

End Translations.

(** ** Main.py *)

Module Main.

Set Warnings "-inexact-float".

(** The object [Main.py] creates from [SETTINGS]; the literals are read as
    Python reads them, as the nearest doubles. *)
Definition gui : option (MandelbrotGUI.gui float) :=
  MandelbrotGUI.__init__ (-2.0)%float 0.5%float (-1.25)%float 1.25%float
                         10 10 128 75 0.7%float.

Set Warnings "+inexact-float".

End Main.

Unset Implicit Arguments.

(** ** Definitions used by the statements *)

(** A reference model of [np.linspace(start, stop, num)], after NumPy's
    documentation: [num] samples, [start + i * step] with
    [step = (stop - start) / (num - 1)], the last one being [stop] itself;
    [[start]] alone when [num = 1], where there is no step to take. *)
Definition np_linspace {F : Type} {A : Arith F} (start stop : F) (num : Z) : list F :=
  if num <=? 0 then []
  else if num =? 1 then [start]
  else
    let step := div (sub stop start) (of_int (num - 1)) in
    map (fun i => add start (mul (of_int (Z.of_nat i)) step))
        (seq 0 (Z.to_nat (num - 1)))
    ++ [stop].

(** The samples of [axis] are evenly spaced over [[lo, hi]], both endpoints
    included, in exact arithmetic: the first is [lo], the last is [hi], and
    two neighbours are [(hi - lo) / (n - 1)] apart, [n] being their number. *)
Definition evenly_spaced (axis : list R) (lo hi : R) : Prop :=
  nth 0 axis 0%R = lo
  /\ nth (List.length axis - 1)%nat axis 0%R = hi
  /\ forall i : nat, (S i < List.length axis)%nat ->
       (nth (S i) axis 0 - nth i axis 0
        = (hi - lo) / INR (List.length axis - 1))%R.

(** The cell [n3[i, j]] of a grid. *)
Definition cell (n3 : MandelbrotOps.grid) (i j : nat) : Z :=
  nth j (nth i n3 []) 0.

(** The viewport of an object is ordered: [xmin < xmax] and [ymin < ymax]
    for the current rectangle. *)
Definition ordered {F : Type} {A : Arith F} (g : MandelbrotGUI.gui F) : bool :=
  ltb (MandelbrotGUI.item0 (MandelbrotGUI.currdata g))
      (MandelbrotGUI.item2 (MandelbrotGUI.currdata g))
  && ltb (MandelbrotGUI.item1 (MandelbrotGUI.currdata g))
         (MandelbrotGUI.item3 (MandelbrotGUI.currdata g)).

(** The stored width and height are those of the current rectangle. *)
Definition wh_fresh {F : Type} {A : Arith F} (g : MandelbrotGUI.gui F) : Prop :=
  MandelbrotGUI.cd_width g
  = fabs (sub (MandelbrotGUI.item0 (MandelbrotGUI.currdata g))
              (MandelbrotGUI.item2 (MandelbrotGUI.currdata g)))
  /\ MandelbrotGUI.cd_height g
     = fabs (sub (MandelbrotGUI.item1 (MandelbrotGUI.currdata g))
                 (MandelbrotGUI.item3 (MandelbrotGUI.currdata g))).

(** A navigation request: any button, wheel or key event. *)
Definition is_request {F : Type} (ev : MandelbrotGUI.event F) : bool :=
  match ev with
  | MandelbrotGUI.WorkerDone _ => false
  | _ => true
  end.

(** [n] times: a zoom-in, then the end of its pass. *)
Fixpoint zoom_in_times (n : nat) : list (MandelbrotGUI.event float) :=
  match n with
  | O => []
  | S n' => MandelbrotGUI.zoomIn :: MandelbrotGUI.WorkerDone [] :: zoom_in_times n'
  end.

(** "Within a relative tolerance", on doubles: what
    [math.isclose(a, b, rel_tol=rel_tol)] computes. *)
Definition isclose (a b rel_tol : float) : bool :=
  let diff := PrimFloat.abs (PrimFloat.sub b a) in
  PrimFloat.eqb a b
  || (negb (is_infinity a || is_infinity b)
      && (PrimFloat.leb diff (PrimFloat.abs (PrimFloat.mul rel_tol b))
          || PrimFloat.leb diff (PrimFloat.abs (PrimFloat.mul rel_tol a)))).

Definition isclose4 (v w : float * float * float * float) (rel_tol : float) : bool :=
  isclose (MandelbrotGUI.item0 v) (MandelbrotGUI.item0 w) rel_tol
  && isclose (MandelbrotGUI.item1 v) (MandelbrotGUI.item1 w) rel_tol
  && isclose (MandelbrotGUI.item2 v) (MandelbrotGUI.item2 w) rel_tol
  && isclose (MandelbrotGUI.item3 v) (MandelbrotGUI.item3 w) rel_tol.

(** The complex conjugate. *)
Definition conj (c : MandelbrotOps.complex R) : MandelbrotOps.complex R :=
  MandelbrotOps.Complex (MandelbrotOps.real c) (- MandelbrotOps.imag c)%R.

(** The squared modulus, in exact arithmetic. *)
Definition norm2 (z : MandelbrotOps.complex R) : R :=
  (MandelbrotOps.real z * MandelbrotOps.real z
   + MandelbrotOps.imag z * MandelbrotOps.imag z)%R.

(** [n] times: the request [ev], then the end of its pass. *)
Fixpoint rounds {F : Type} (ev : MandelbrotGUI.event F) (n : nat)
  : list (MandelbrotGUI.event F) :=
  match n with
  | O => []
  | S n' => ev :: MandelbrotGUI.WorkerDone [] :: rounds ev n'
  end.

Section StatementDefinitions.

Import MandelbrotGUI.

(** Two objects have the same settings (the attributes [__init__] copies
    from its arguments, and the two zoom factors). *)
Definition same_settings {F : Type} (g g' : gui F) : Prop :=
  xmin g' = xmin g /\ xmax g' = xmax g /\ ymin g' = ymin g /\ ymax g' = ymax g
  /\ width g' = width g /\ height g' = height g
  /\ maxiter g' = maxiter g /\ dpi g' = dpi g
  /\ zoomfactor_in g' = zoomfactor_in g /\ zoomfactor_out g' = zoomfactor_out g.

Local Open Scope R_scope.

(** [xmin < xmax] and [ymin < ymax] for the current rectangle, in exact
    arithmetic. *)
Definition ordered_exact (g : gui R) : Prop :=
  item0 (currdata g) < item2 (currdata g)
  /\ item1 (currdata g) < item3 (currdata g).

(** What the two zooms do to the rectangle in exact arithmetic, for a factor
    [zf]. *)
Definition zoomed (g : gui R) (zf : R) : R * R * R * R :=
  let cx := item0 (currdata g) + cd_width g / 2 in
  let cy := item1 (currdata g) + cd_height g / 2 in
  (cx - cd_width g / 2 * zf, cy - cd_height g / 2 * zf,
   cx + cd_width g / 2 * zf, cy + cd_height g / 2 * zf).

(** What holds, in exact arithmetic, of every object the event loop can
    reach from startup bounds that are ordered and a zoom factor above 0. *)
Definition sound (g : gui R) : Prop :=
  ordered_exact g /\ wh_fresh g
  /\ xmin g < xmax g /\ ymin g < ymax g
  /\ 0 < zoomfactor_in g /\ 0 < zoomfactor_out g.

(** An idle object whose rectangle is not inverted and whose stored size is
    fresh, in exact arithmetic. *)
Definition idle_ordered (g : gui R) : Prop :=
  processing g = false /\ wh_fresh g
  /\ item0 (currdata g) <= item2 (currdata g)
  /\ item1 (currdata g) <= item3 (currdata g).

(** The center and the half-extents of the current rectangle. *)
Definition center_x (g : gui R) : R := (item0 (currdata g) + item2 (currdata g)) / 2.
Definition center_y (g : gui R) : R := (item1 (currdata g) + item3 (currdata g)) / 2.
Definition half_width (g : gui R) : R := (item2 (currdata g) - item0 (currdata g)) / 2.
Definition half_height (g : gui R) : R := (item3 (currdata g) - item1 (currdata g)) / 2.

End StatementDefinitions.

(** * The escape-time kernel *)

Section Kernel.

Import MandelbrotOps.

Context {F : Type} {A : Arith F}.
Variable hypot : F -> F -> F.

Lemma mandelbrot_loop_first_escape (c : complex F) (horizon : F) :
  forall (m fuel : nat) (n : Z) (k : nat),
    (m < fuel)%nat ->
    escaped hypot (orbit c (k + m)) horizon = true ->
    (forall i, (i < m)%nat -> escaped hypot (orbit c (k + i)) horizon = false) ->
    mandelbrot_loop hypot fuel n (orbit c k) c horizon = n + Z.of_nat m.
Proof.
  induction m as [|m IH]; intros fuel n k Hfuel Hesc Hbefore.
  - destruct fuel as [|fuel]; [lia|].
    rewrite Nat.add_0_r in Hesc. cbn [mandelbrot_loop].
    unfold escaped in Hesc. rewrite Hesc. lia.
  - destruct fuel as [|fuel]; [lia|].
    cbn [mandelbrot_loop].
    assert (H0 : escaped hypot (orbit c k) horizon = false).
    { specialize (Hbefore O ltac:(lia)). now rewrite Nat.add_0_r in Hbefore. }
    unfold escaped in H0. rewrite H0.
    change (cadd (cmul (orbit c k) (orbit c k)) c) with (orbit c (S k)).
    rewrite (IH fuel (n + 1) (S k)).
    + lia.
    + lia.
    + now replace (S k + m)%nat with (k + S m)%nat by lia.
    + intros i Hi. replace (S k + i)%nat with (k + S i)%nat by lia.
      apply Hbefore. lia.
Qed.

Lemma mandelbrot_loop_never_escapes (c : complex F) (horizon : F) :
  forall (fuel : nat) (n : Z) (k : nat),
    (forall i, (i < fuel)%nat -> escaped hypot (orbit c (k + i)) horizon = false) ->
    mandelbrot_loop hypot fuel n (orbit c k) c horizon = 0.
Proof.
  induction fuel as [|fuel IH]; intros n k Hnever; [reflexivity|].
  cbn [mandelbrot_loop].
  assert (H0 : escaped hypot (orbit c k) horizon = false).
  { specialize (Hnever O ltac:(lia)). now rewrite Nat.add_0_r in Hnever. }
  unfold escaped in H0. rewrite H0.
  change (cadd (cmul (orbit c k) (orbit c k)) c) with (orbit c (S k)).
  apply IH. intros i Hi.
  replace (S k + i)%nat with (k + S i)%nat by lia. apply Hnever. lia.
Qed.

(** The loop returns [0] or a value of its loop variable. *)
Lemma mandelbrot_loop_range (c : complex F) (horizon : F) :
  forall (fuel : nat) (n : Z) (z : complex F),
    let r := mandelbrot_loop hypot fuel n z c horizon in
    r = 0 \/ (n <= r < n + Z.of_nat fuel).
Proof.
  induction fuel as [|fuel IH]; intros n z; cbn [mandelbrot_loop].
  - now left.
  - destruct (gtb (cabs hypot z) horizon).
    + right. lia.
    + destruct (IH (n + 1) (cadd (cmul z z) c)) as [H0 | Hr].
      * now left.
      * right. lia.
Qed.

Lemma mandelbrot_first_escape (c : complex F) (maxiter : Z) (horizon : F) (n : nat) :
  Z.of_nat n < maxiter ->
  escaped hypot (orbit c n) horizon = true ->
  (forall k, (k < n)%nat -> escaped hypot (orbit c k) horizon = false) ->
  mandelbrot hypot c maxiter horizon = Z.of_nat n.
Proof.
  intros Hn Hesc Hbefore. unfold mandelbrot.
  change c with (orbit c 0) at 1.
  rewrite (mandelbrot_loop_first_escape c horizon n); auto; lia.
Qed.

Lemma mandelbrot_never_escapes (c : complex F) (maxiter : Z) (horizon : F) :
  (forall k, Z.of_nat k < maxiter -> escaped hypot (orbit c k) horizon = false) ->
  mandelbrot hypot c maxiter horizon = 0.
Proof.
  intros Hnever. unfold mandelbrot.
  change c with (orbit c 0) at 1.
  apply mandelbrot_loop_never_escapes. intros i Hi. apply Hnever. lia.
Qed.

Lemma mandelbrot_bounds (c : complex F) (maxiter : Z) (horizon : F) :
  0 <= maxiter ->
  0 <= mandelbrot hypot c maxiter horizon <= maxiter.
Proof.
  intros Hm. unfold mandelbrot.
  pose proof (mandelbrot_loop_range c horizon (Z.to_nat maxiter) 0 c) as Hr.
  cbv zeta in Hr. lia.
Qed.

End Kernel.

Section KernelScenario.

Import MandelbrotOps.

(** Comparisons of the exact arithmetic. *)
Lemma Rltb_true (a b : R) : (a < b)%R -> Rltb a b = true.
Proof. intros H. unfold Rltb. destruct (Rlt_dec a b); [reflexivity | contradiction]. Qed.

Lemma Rltb_false (a b : R) : (b <= a)%R -> Rltb a b = false.
Proof. intros H. unfold Rltb. destruct (Rlt_dec a b); [lra | reflexivity]. Qed.

Lemma Reqb_false (a b : R) : a <> b -> Reqb a b = false.
Proof. intros H. unfold Reqb. destruct (Req_dec_T a b); [contradiction | reflexivity]. Qed.

Lemma Rhypot_axis (x : R) : (0 <= x)%R -> Rhypot x 0 = x.
Proof.
  intros Hx. unfold Rhypot.
  replace (x * x + 0 * 0)%R with (x * x)%R by ring.
  now apply sqrt_square.
Qed.

(** The two orbits of the specification's scenario, in exact arithmetic. *)
Lemma orbit_origin_exact (k : nat) :
  orbit (A := exact) (Complex 0%R 0%R) k
  = Complex 0%R 0%R.
Proof.
  induction k as [|k IH]; [reflexivity|].
  cbn [orbit]. rewrite IH.
  unfold cadd, cmul; cbn.
  f_equal; ring.
Qed.

Lemma origin_never_escapes_exact (k : nat) :
  escaped (A := exact) Rhypot
    (orbit (Complex 0%R 0%R) k)
    default_horizon = false.
Proof.
  rewrite orbit_origin_exact.
  unfold escaped, cabs, gtb; cbn.
  rewrite Rhypot_axis by lra. apply Rltb_false. lra.
Qed.

Lemma two_not_escaped_exact :
  escaped (A := exact) Rhypot
    (orbit (Complex 2%R 0%R) 0)
    default_horizon = false.
Proof.
  unfold escaped, cabs, gtb; cbn.
  rewrite Rhypot_axis by lra. apply Rltb_false. lra.
Qed.

Lemma two_escapes_at_1_exact :
  escaped (A := exact) Rhypot
    (orbit (Complex 2%R 0%R) 1)
    default_horizon = true.
Proof.
  unfold escaped, cabs, gtb; cbn.
  replace (2 * 2 - 0 * 0 + 2)%R with 6%R by ring.
  replace (2 * 0 + 0 * 2 + 0)%R with 0%R by ring.
  rewrite Rhypot_axis by lra. apply Rltb_true. lra.
Qed.

(** C1: the kernel is seeded with [z0 = c]; it returns [n] when the orbit of
    [c] under [z <- z*z + c] first exceeds the horizon at iteration [n]
    with [0 <= n < maxiter], and [0] when the orbit does not exceed the
    horizon in any of the [maxiter] iterations.  In particular
    [mandelbrot(0+0j, 50) = 0] and [mandelbrot(2+0j, 50) = 1]. *)
Theorem mandelbrot_escape_time :
  (forall (F : Type) (A : Arith F) (hypot : F -> F -> F)
          (c : complex F) (maxiter : Z) (horizon : F) (n : nat),
      Z.of_nat n < maxiter ->
      escaped hypot (orbit c n) horizon = true ->
      (forall k, (k < n)%nat ->
                 escaped hypot (orbit c k) horizon = false) ->
      mandelbrot hypot c maxiter horizon = Z.of_nat n)
  /\ (forall (F : Type) (A : Arith F) (hypot : F -> F -> F)
             (c : complex F) (maxiter : Z) (horizon : F),
      (forall k, Z.of_nat k < maxiter ->
                 escaped hypot (orbit c k) horizon = false) ->
      mandelbrot hypot c maxiter horizon = 0)
  /\ mandelbrot (A := exact) Rhypot
       (Complex 0%R 0%R) 50 default_horizon = 0
  /\ mandelbrot (A := exact) Rhypot
       (Complex 2%R 0%R) 50 default_horizon = 1.
Proof.
  split; [|split; [|split]].
  - intros F A hypot c maxiter horizon n. apply mandelbrot_first_escape.
  - intros F A hypot c maxiter horizon. apply mandelbrot_never_escapes.
  - apply mandelbrot_never_escapes. intros k _. apply origin_never_escapes_exact.
  - apply (mandelbrot_first_escape Rhypot _ 50 _ 1).
    + lia.
    + apply two_escapes_at_1_exact.
    + intros k Hk. replace k with 0%nat by lia. apply two_not_escaped_exact.
Qed.

Lemma mandelbrot_escape_time_witness :
  mandelbrot (A := exact) Rhypot
    (Complex 2%R 0%R) 50 default_horizon = Z.of_nat 1.
Proof.
  apply (proj1 mandelbrot_escape_time R exact Rhypot).
  - lia.
  - apply two_escapes_at_1_exact.
  - intros k Hk. replace k with 0%nat by lia. apply two_not_escaped_exact.
Defined.

(** The same scenario on doubles, for every [hypot] that is exact on the
    real axis (C99, F.10.4.3: [hypot(x, 0)] is [fabs(x)]). *)
Lemma mandelbrot_scenario_binary64 (hypot : float -> float -> float) :
  (forall x, hypot x 0%float = PrimFloat.abs x) ->
  mandelbrot (A := binary64) hypot
    (Complex 0%float 0%float) 50 default_horizon = 0
  /\ mandelbrot (A := binary64) hypot
    (Complex 2%float 0%float) 50 default_horizon = 1.
Proof.
  intros Haxis. split.
  - apply mandelbrot_never_escapes. intros k _.
    assert (Hk : orbit (A := binary64)
                   (Complex 0%float 0%float) k
                 = Complex 0%float 0%float).
    { induction k as [|k IH]; [reflexivity|].
      cbn [orbit]. rewrite IH. reflexivity. }
    rewrite Hk. unfold escaped, cabs; cbn.
    rewrite Haxis. reflexivity.
  - apply (mandelbrot_first_escape hypot _ 50 _ 1).
    + lia.
    + unfold escaped, cabs.
      change (orbit (A := binary64)
                (Complex 2%float 0%float) 1)
        with (Complex 6%float 0%float).
      cbn. rewrite Haxis. reflexivity.
    + intros k Hk. replace k with 0%nat by lia.
      unfold escaped, cabs; cbn.
      rewrite Haxis. reflexivity.
Qed.

(** C10: for [maxiter >= 1] the result lies in [0, maxiter - 1], so
    [maxiter] itself is never returned; for [maxiter = 0] the result is [0]
    for every [c], whatever its modulus, since the loop body does not run. *)
Theorem mandelbrot_below_maxiter :
  forall (F : Type) (A : Arith F) (hypot : F -> F -> F)
         (c : complex F) (horizon : F) (maxiter : Z),
    (1 <= maxiter ->
     0 <= mandelbrot hypot c maxiter horizon <= maxiter - 1)
    /\ mandelbrot hypot c 0 horizon = 0.
Proof.
  intros F A hypot c horizon maxiter. split; [|reflexivity].
  intros Hm. unfold mandelbrot.
  pose proof (mandelbrot_loop_range hypot c horizon (Z.to_nat maxiter) 0 c) as Hr.
  cbv zeta in Hr. lia.
Qed.

(** [3+0j] is outside the horizon, and yet [mandelbrot(3+0j, 0) = 0]. *)
Lemma mandelbrot_below_maxiter_witness :
  escaped (A := exact) Rhypot (Complex 3%R 0%R)
    default_horizon = true
  /\ mandelbrot (A := exact) Rhypot
       (Complex 3%R 0%R) 0 default_horizon = 0
  /\ 0 <= mandelbrot (A := exact) Rhypot
            (Complex 3%R 0%R) 50 default_horizon <= 50 - 1.
Proof.
  split; [|split].
  - unfold escaped, cabs, gtb; cbn.
    rewrite Rhypot_axis by lra. apply Rltb_true. lra.
  - apply (proj2 (mandelbrot_below_maxiter R exact Rhypot
                    (Complex 3%R 0%R) default_horizon 0)).
  - apply (proj1 (mandelbrot_below_maxiter R exact Rhypot
                    (Complex 3%R 0%R) default_horizon 50)).
    lia.
Defined.

End KernelScenario.

(** * The region sampler *)

Section Sampler.

Import MandelbrotOps.

Lemma nth_map_seq {B : Type} (f : nat -> B) (n i : nat) (d : B) :
  (i < n)%nat -> nth i (map f (seq 0 n)) d = f i.
Proof.
  intros Hi.
  rewrite (nth_indep _ d (f 0%nat)) by (rewrite length_map, length_seq; exact Hi).
  rewrite (map_nth f (seq 0 n) 0%nat i).
  now rewrite seq_nth.
Qed.

Lemma length_concat_uniform {B : Type} (l : list (list B)) (h : nat) :
  (forall row, In row l -> List.length row = h) ->
  List.length (concat l) = (List.length l * h)%nat.
Proof.
  induction l as [|r l IH]; intros Hrows; [reflexivity|].
  cbn [concat List.length]. rewrite length_app, IH.
  - rewrite (Hrows r (or_introl eq_refl)). lia.
  - intros row Hrow. apply Hrows. now right.
Qed.

(** The reference model of [np.linspace] has [num] entries. *)
Lemma np_linspace_length {F : Type} {A : Arith F} (start stop : F) (num : Z) :
  0 <= num -> List.length (np_linspace start stop num) = Z.to_nat num.
Proof.
  intros Hnum. unfold np_linspace.
  destruct (num <=? 0) eqn:H0.
  - apply Z.leb_le in H0. replace num with 0 by lia. reflexivity.
  - apply Z.leb_gt in H0. destruct (num =? 1) eqn:H1.
    + apply Z.eqb_eq in H1. subst num. reflexivity.
    + rewrite length_app, length_map, length_seq. cbn [List.length]. lia.
Qed.

(** In exact arithmetic the model is evenly spaced from [start] to [stop],
    both included, as soon as there are two samples. *)
Lemma np_linspace_exact_samples (start stop : R) (num : Z) (i : nat) :
  2 <= num -> (i < Z.to_nat num)%nat ->
  nth i (np_linspace (A := exact) start stop num) 0%R
  = (start + INR i * ((stop - start) / IZR (num - 1)))%R.
Proof.
  intros Hnum Hi. unfold np_linspace.
  destruct (num <=? 0) eqn:H0; [apply Z.leb_le in H0; lia|].
  destruct (num =? 1) eqn:H1; [apply Z.eqb_eq in H1; lia|].
  assert (Hd : IZR (num - 1) <> 0%R) by (apply not_0_IZR; lia).
  destruct (Nat.lt_ge_cases i (Z.to_nat (num - 1))) as [Hlt | Hge].
  - rewrite app_nth1 by (rewrite length_map, length_seq; exact Hlt).
    rewrite nth_map_seq by exact Hlt. cbn.
    now rewrite <- INR_IZR_INZ.
  - assert (Hi' : i = Z.to_nat (num - 1)) by lia.
    rewrite app_nth2 by (rewrite length_map, length_seq; lia).
    rewrite length_map, length_seq, Hi', Nat.sub_diag. cbn [nth].
    rewrite INR_IZR_INZ, Z2Nat.id by lia.
    field. exact Hd.
Qed.

(** In exact arithmetic [r1[i] + 1j * r2[j]] is the point [(r1[i], r2[j])]. *)
Lemma point_exact (x y : R) :
  point (A := exact) x y = Complex x y.
Proof.
  unfold point, cadd, cmul, of_float, j; cbn.
  f_equal; ring.
Qed.

(** The model gives a single sample as [[start]]. *)
Lemma np_linspace_single {F : Type} {A : Arith F} (start stop : F) :
  np_linspace start stop 1 = [start].
Proof. reflexivity. Qed.

(** In exact arithmetic the model is evenly spaced over [[start, stop]], both
    endpoints included, as soon as there are two samples. *)
Lemma np_linspace_evenly_spaced (start stop : R) (num : Z) :
  2 <= num -> evenly_spaced (np_linspace (A := exact) start stop num) start stop.
Proof.
  intros Hnum. unfold evenly_spaced.
  rewrite np_linspace_length by lia.
  assert (Hd : IZR (num - 1) <> 0%R) by (apply not_0_IZR; lia).
  assert (Hn : INR (Z.to_nat num - 1) = IZR (num - 1)).
  { rewrite INR_IZR_INZ. f_equal. lia. }
  split; [|split].
  - rewrite np_linspace_exact_samples by lia. cbn [INR]. ring.
  - rewrite np_linspace_exact_samples by lia. rewrite Hn. field. exact Hd.
  - intros i Hi. rewrite !np_linspace_exact_samples by lia.
    rewrite Hn, S_INR. field. exact Hd.
Qed.

(** A list of one sample is evenly spaced over [[lo, hi]] only when the two
    bounds are the same. *)
Lemma evenly_spaced_single (a lo hi : R) :
  evenly_spaced [a] lo hi -> lo = hi.
Proof.
  unfold evenly_spaced. cbn [List.length Nat.sub nth].
  intros (H0 & H1 & _). now rewrite <- H0, <- H1.
Qed.

(** The grid, in every arithmetic and for every axis function: [width] rows
    of [height] cells, the cell [(i, j)] being the kernel's result at
    [r1[i] + 1j * r2[j]]. *)
Lemma mandelbrot_set_cells {F : Type} {A : Arith F} (hypot : F -> F -> F)
  (linspace : F -> F -> Z -> list F)
  (xmin xmax ymin ymax : F) (W H maxiter : Z) :
  0 <= W -> 0 <= H ->
  exists n3 : grid,
    mandelbrot_set hypot linspace xmin xmax ymin ymax W H maxiter = Some n3
    /\ List.length n3 = Z.to_nat W
    /\ (forall row, In row n3 -> List.length row = Z.to_nat H)
    /\ List.length (concat n3) = Z.to_nat (W * H)
    /\ (forall i j, (i < Z.to_nat W)%nat -> (j < Z.to_nat H)%nat ->
          cell n3 i j
          = mandelbrot hypot
              (point (nth i (linspace xmin xmax W) (of_int 0))
                     (nth j (linspace ymin ymax H) (of_int 0)))
              maxiter default_horizon).
Proof.
  intros HW HH.
  unfold mandelbrot_set.
  replace ((W <? 0) || (H <? 0)) with false
    by (symmetry; apply orb_false_intro; apply Z.ltb_ge; lia).
  cbv zeta. eexists. split; [reflexivity|].
  assert (Hrows : forall row,
             In row (map (fun i =>
                       map (fun j =>
                              mandelbrot hypot
                                (point
                                   (nth i (linspace xmin xmax W) (of_int 0))
                                   (nth j (linspace ymin ymax H) (of_int 0)))
                                maxiter default_horizon)
                           (seq 0 (Z.to_nat H)))
                     (seq 0 (Z.to_nat W))) ->
             List.length row = Z.to_nat H).
  { intros row Hrow. apply in_map_iff in Hrow. destruct Hrow as [i [<- _]].
    now rewrite length_map, length_seq. }
  split; [now rewrite length_map, length_seq|].
  split; [exact Hrows|].
  split.
  { rewrite (length_concat_uniform _ _ Hrows), length_map, length_seq.
    now rewrite Z2Nat.inj_mul by lia. }
  intros i j Hi Hj. unfold cell.
  now rewrite (nth_map_seq _ _ _ _ Hi), (nth_map_seq _ _ _ _ Hj).
Qed.

(** C2, as amended.  For [W >= 1] and [H >= 1]:

    - in every arithmetic, and whatever the axes hold, the sampler returns a
      grid of [W] rows of [H] cells, [W * H] cells in all; the cell [(i, j)]
      is the kernel's result at [r1[i] + 1j * r2[j]] and lies in
      [0, maxiter] (for an iteration cap that is not negative);
    - in exact arithmetic, with [np.linspace] as NumPy documents it, the axes
      have [W] and [H] samples; an axis of two or more samples is evenly
      spaced over its interval, both endpoints included; an axis of one
      sample is the lower bound alone; and the cell [(i, j)] is the kernel's
      result at the point [complex(xAxis[i], yAxis[j])], for the horizon 2. *)
Theorem mandelbrot_set_grid :
  (forall (F : Type) (A : Arith F) (hypot : F -> F -> F)
          (linspace : F -> F -> Z -> list F)
          (xmin xmax ymin ymax : F) (W H maxiter : Z),
      1 <= W -> 1 <= H -> 0 <= maxiter ->
      exists n3 : grid,
        mandelbrot_set hypot linspace xmin xmax ymin ymax W H maxiter
        = Some n3
        /\ List.length n3 = Z.to_nat W
        /\ (forall row, In row n3 -> List.length row = Z.to_nat H)
        /\ List.length (concat n3) = Z.to_nat (W * H)
        /\ (forall i j, (i < Z.to_nat W)%nat -> (j < Z.to_nat H)%nat ->
              cell n3 i j
              = mandelbrot hypot
                  (point (nth i (linspace xmin xmax W) (of_int 0))
                         (nth j (linspace ymin ymax H) (of_int 0)))
                  maxiter default_horizon
              /\ 0 <= cell n3 i j <= maxiter))
  /\ (forall (hypot : R -> R -> R) (xmin xmax ymin ymax : R) (W H maxiter : Z),
      1 <= W -> 1 <= H ->
      let xAxis := np_linspace (A := exact) xmin xmax W in
      let yAxis := np_linspace (A := exact) ymin ymax H in
      List.length xAxis = Z.to_nat W
      /\ List.length yAxis = Z.to_nat H
      /\ (2 <= W -> evenly_spaced xAxis xmin xmax)
      /\ (W = 1 -> xAxis = [xmin])
      /\ (2 <= H -> evenly_spaced yAxis ymin ymax)
      /\ (H = 1 -> yAxis = [ymin])
      /\ exists n3 : grid,
           mandelbrot_set (A := exact) hypot np_linspace
             xmin xmax ymin ymax W H maxiter
           = Some n3
           /\ forall i j, (i < Z.to_nat W)%nat -> (j < Z.to_nat H)%nat ->
                cell n3 i j
                = mandelbrot (A := exact) hypot
                    (Complex (nth i xAxis 0%R) (nth j yAxis 0%R))
                    maxiter 2%R).
Proof.
  split.
  - intros F A hypot linspace xmin xmax ymin ymax W H maxiter HW HH Hm.
    destruct (mandelbrot_set_cells hypot linspace xmin xmax ymin ymax W H maxiter)
      as [n3 (Hset & Hlen & Hrows & Hcount & Hcell)]; [lia | lia |].
    exists n3. split; [exact Hset|]. split; [exact Hlen|].
    split; [exact Hrows|]. split; [exact Hcount|].
    intros i j Hi Hj. rewrite (Hcell i j Hi Hj).
    split; [reflexivity|]. now apply mandelbrot_bounds.
  - intros hypot xmin xmax ymin ymax W H maxiter HW HH. cbv zeta.
    split; [apply np_linspace_length; lia|].
    split; [apply np_linspace_length; lia|].
    split; [intros HW2; now apply np_linspace_evenly_spaced|].
    split; [intros ->; apply np_linspace_single|].
    split; [intros HH2; now apply np_linspace_evenly_spaced|].
    split; [intros ->; apply np_linspace_single|].
    destruct (mandelbrot_set_cells (A := exact) hypot np_linspace
                xmin xmax ymin ymax W H maxiter)
      as [n3 (Hset & _ & _ & _ & Hcell)]; [lia | lia |].
    exists n3. split; [exact Hset|].
    intros i j Hi Hj. rewrite (Hcell i j Hi Hj).
    now rewrite point_exact.
Qed.

Lemma mandelbrot_set_grid_witness :
  exists n3 : grid,
    mandelbrot_set (A := exact) Rhypot np_linspace
      (-2)%R (1/2)%R (-5/4)%R (5/4)%R 3 2 50 = Some n3
    /\ evenly_spaced (np_linspace (A := exact) (-2)%R (1/2)%R 3) (-2)%R (1/2)%R
    /\ cell n3 2 1
       = mandelbrot (A := exact) Rhypot
           (Complex (nth 2 (np_linspace (A := exact) (-2)%R (1/2)%R 3) 0%R)
                    (nth 1 (np_linspace (A := exact) (-5/4)%R (5/4)%R 2) 0%R))
           50 2%R.
Proof.
  destruct (proj2 mandelbrot_set_grid Rhypot
              (-2)%R (1/2)%R (-5/4)%R (5/4)%R 3 2 50
              ltac:(lia) ltac:(lia))
    as (_ & _ & Hx & _ & _ & _ & n3 & Hset & Hcell).
  exists n3. split; [exact Hset|].
  split; [apply Hx; lia|].
  apply Hcell; cbn; lia.
Defined.

(** C2, the claim as written: it takes every [W >= 1] and [H >= 1], but an
    axis of one sample cannot hold both endpoints.  For the viewport of
    [Main.py] and [W = H = 1], [np.linspace(-2.0, 0.5, 1)] is [[-2.0]], in
    exact arithmetic as on doubles: [xmax = 0.5] is not a sample, the axis is
    not evenly spaced over [[-2, 0.5]] with both endpoints included, and the
    one cell of the grid is the kernel's result at [(xmin, ymin)]. *)
Theorem mandelbrot_set_single_sample_axis :
  np_linspace (A := exact) (-2)%R (1/2)%R 1 = [(-2)%R]
  /\ np_linspace (A := binary64) (-2)%float 0.5%float 1 = [(-2)%float]
  /\ ~ In (1/2)%R (np_linspace (A := exact) (-2)%R (1/2)%R 1)
  /\ ~ evenly_spaced (np_linspace (A := exact) (-2)%R (1/2)%R 1) (-2)%R (1/2)%R
  /\ mandelbrot_set (A := exact) Rhypot np_linspace
       (-2)%R (1/2)%R (-5/4)%R (5/4)%R 1 1 50
     = Some [[mandelbrot (A := exact) Rhypot (Complex (-2)%R (-5/4)%R) 50 2%R]].
Proof.
  split; [reflexivity|]. split; [reflexivity|].
  rewrite np_linspace_single.
  split; [intros [Hin | []]; lra|].
  split; [intros Hev; apply evenly_spaced_single in Hev; lra|].
  unfold mandelbrot_set. rewrite !np_linspace_single.
  change (Z.to_nat 1) with 1%nat.
  change ((1 <? 0) || (1 <? 0)) with false.
  cbn [seq map nth]. now rewrite point_exact.
Qed.

End Sampler.

(** * The viewport controller, in every arithmetic *)

Section Controller.

Import MandelbrotGUI.

Context {F : Type} {A : Arith F}.

(** A request that arrives while a pass is in flight is dropped. *)
Lemma handle_while_processing (g : gui F) (ev : event F) :
  processing g = true -> is_request ev = true -> handle g ev = Returned g [].
Proof.
  intros Hp Hev. destruct ev as [b inaxes | key | m]; [| |discriminate].
  - cbn [handle]. unfold _button_released.
    destruct b as [n| |].
    + destruct n as [|p|p]; try reflexivity.
      destruct p as [p|p|]; try reflexivity.
      * destruct p; try reflexivity.
        unfold _button_mouse3_released. now rewrite Hp.
      * unfold _button_mouse1_released. now rewrite Hp.
    + unfold _button_mousescrollup. now rewrite Hp.
    + unfold _button_mousescrolldown. now rewrite Hp.
  - cbn [handle]. unfold _key_released.
    destruct (String.eqb key "+").
    + unfold _button_mousescrolldown. now rewrite Hp.
    + destruct (String.eqb key "-"); [|reflexivity].
      unfold _button_mousescrollup. now rewrite Hp.
Qed.

Lemma same_settings_refl (g : gui F) : same_settings g g.
Proof. repeat split. Qed.

(** The settings of [__init__] are never assigned again. *)
Lemma handle_same_settings (g : gui F) (ev : event F) :
  same_settings g (state_of (handle g ev)).
Proof.
  destruct ev as [b inaxes | key | m]; cbn [handle].
  - unfold _button_released.
    destruct b as [n| |].
    + destruct n as [|p|p]; try apply same_settings_refl.
      destruct p as [p|p|]; try apply same_settings_refl.
      * destruct p; try apply same_settings_refl.
        unfold _button_mouse3_released.
        destruct (processing g); cbn [negb state_of]; repeat split.
      * unfold _button_mouse1_released.
        destruct (processing g); cbn [negb state_of]; [repeat split|].
        destruct inaxes as [xy|]; cbn [state_of]; [|repeat split].
        destruct (_transform_coords (set_processing g true) xy);
          cbn [state_of]; repeat split.
    + unfold _button_mousescrollup.
      destruct (processing g); cbn [negb state_of]; repeat split.
    + unfold _button_mousescrolldown.
      destruct (processing g); cbn [negb state_of]; repeat split.
  - unfold _key_released, _button_mousescrolldown, _button_mousescrollup.
    destruct (String.eqb key "+"); [|destruct (String.eqb key "-")];
      try (destruct (processing g)); cbn [negb state_of]; repeat split.
  - cbn [state_of]. repeat split.
Qed.

Lemma run_same_settings (evs : list (event F)) :
  forall g, same_settings g (run g evs).
Proof.
  induction evs as [|ev evs IH]; intros g; cbn [run]; [apply same_settings_refl|].
  pose proof (handle_same_settings g ev) as H1.
  pose proof (IH (state_of (handle g ev))) as H2.
  unfold same_settings in *.
  repeat match goal with H : _ /\ _ |- _ => destruct H end.
  repeat split; congruence.
Qed.

(** [_calc_cd_wh] closes every assignment to [currdata]. *)
Lemma handle_wh_fresh (g : gui F) (ev : event F) :
  wh_fresh g -> wh_fresh (state_of (handle g ev)).
Proof.
  intros Hg. destruct ev as [b inaxes | key | m]; cbn [handle].
  - unfold _button_released.
    destruct b as [n| |].
    + destruct n as [|p|p]; try exact Hg.
      destruct p as [p|p|]; try exact Hg.
      * destruct p; try exact Hg.
        unfold _button_mouse3_released.
        destruct (processing g); cbn [negb state_of]; [exact Hg | split; reflexivity].
      * unfold _button_mouse1_released.
        destruct (processing g); cbn [negb state_of]; [exact Hg|].
        destruct inaxes as [xy|]; cbn [state_of]; [|exact Hg].
        destruct (_transform_coords (set_processing g true) xy);
          cbn [state_of]; [split; reflexivity | exact Hg].
    + unfold _button_mousescrollup.
      destruct (processing g); cbn [negb state_of]; [exact Hg | split; reflexivity].
    + unfold _button_mousescrolldown.
      destruct (processing g); cbn [negb state_of]; [exact Hg | split; reflexivity].
  - unfold _key_released, _button_mousescrolldown, _button_mousescrollup.
    destruct (String.eqb key "+"); [|destruct (String.eqb key "-")];
      try (destruct (processing g)); cbn [negb state_of];
      try exact Hg; split; reflexivity.
  - exact Hg.
Qed.

Lemma init_wh_fresh (x0 x1 y0 y1 : F) (w h m d : Z) (zf : F) (g0 : gui F) :
  __init__ x0 x1 y0 y1 w h m d zf = Some g0 -> wh_fresh g0.
Proof.
  unfold __init__. destruct (truediv (of_int 1) zf); [|discriminate].
  intros [= <-]. split; reflexivity.
Qed.

Lemma run_wh_fresh (evs : list (event F)) :
  forall g, wh_fresh g -> wh_fresh (run g evs).
Proof.
  induction evs as [|ev evs IH]; intros g Hg; cbn [run]; [exact Hg|].
  apply IH. now apply handle_wh_fresh.
Qed.

End Controller.

Section Requests.

Import MandelbrotGUI.

(** C5: a navigation request (a click, a reset, a zoom in or out, by button,
    wheel or key) that arrives while [processing] is true leaves the object
    as it is, viewport, zoom level and flag included, and starts no
    pass. *)
Theorem request_dropped_while_processing :
  forall (F : Type) (A : Arith F)
         (g : gui F) (ev : event F),
    processing g = true ->
    is_request ev = true ->
    handle g ev = Returned g []
    /\ currdata (state_of (handle g ev))
       = currdata g
    /\ curr_zoomlvl (state_of (handle g ev))
       = curr_zoomlvl g
    /\ processing (state_of (handle g ev))
       = true
    /\ started_by (handle g ev) = [].
Proof.
  intros F A g ev Hp Hev.
  rewrite (handle_while_processing g ev Hp Hev). cbn.
  repeat split; auto.
Qed.

Lemma request_dropped_while_processing_witness :
  exists g0 : gui float,
    Main.gui = Some g0
    /\ let g := run g0 [zoomIn] in
       handle g (navigateTo (300%float, 375%float))
       = Returned g [].
Proof.
  eexists. split; [reflexivity|]. cbv zeta.
  apply (request_dropped_while_processing float binary64); reflexivity.
Defined.

(** C4, as the code has it: the zoom level is [0] after [__init__], goes up
    by one on every accepted zoom-in (wheel down, key [+]), down by one on
    every accepted zoom-out (wheel up, key [-]), and back to [0] on an
    accepted reset. *)
Theorem zoomlevel_counts_zoom_ins :
  forall (F : Type) (A : Arith F) (g : gui F)
         (inaxes : option (F * F)),
    processing g = false ->
    let level ev :=
      curr_zoomlvl (state_of (handle g ev)) in
    level (ButtonEvent Down inaxes)
    = curr_zoomlvl g + 1
    /\ level (KeyEvent "+") = curr_zoomlvl g + 1
    /\ level (ButtonEvent Up inaxes)
       = curr_zoomlvl g - 1
    /\ level (KeyEvent "-") = curr_zoomlvl g - 1
    /\ level (ButtonEvent (Mouse 3) inaxes) = 0
    /\ forall x0 x1 y0 y1 w h m d zf g0,
         __init__ x0 x1 y0 y1 w h m d zf = Some g0 ->
         curr_zoomlvl g0 = 0.
Proof.
  intros F A g inaxes Hp. cbv zeta. cbn.
  unfold _button_mousescrolldown, _button_mousescrollup,
    _button_mouse3_released.
  rewrite Hp. cbn. repeat split.
  intros x0 x1 y0 y1 w h m d zf g0. unfold __init__.
  destruct (truediv (of_int 1) zf); [|discriminate].
  now intros [= <-].
Qed.

Lemma zoomlevel_counts_zoom_ins_witness :
  exists g0 : gui float,
    Main.gui = Some g0
    /\ curr_zoomlvl
         (state_of (handle g0 zoomIn))
       = curr_zoomlvl g0 + 1.
Proof.
  eexists. split; [reflexivity|].
  refine (proj1 (zoomlevel_counts_zoom_ins float binary64 _ None _)).
  reflexivity.
Defined.

(** C4, as the claim has it, fails on the object of [Main.py]: its first
    zoom-out is accepted and takes the level from [0] to [-1], not to [1];
    its first zoom-in takes it to [1], not to [-1]. *)
Lemma zoomlevel_claim_fails :
  exists g0 : gui float,
    Main.gui = Some g0
    /\ processing g0 = false
    /\ curr_zoomlvl g0 = 0
    /\ curr_zoomlvl
         (state_of (handle g0 zoomOut)) = -1
    /\ curr_zoomlvl
         (state_of (handle g0 zoomOut))
       <> curr_zoomlvl g0 + 1
    /\ curr_zoomlvl
         (state_of (handle g0 zoomIn)) = 1
    /\ curr_zoomlvl
         (state_of (handle g0 zoomIn))
       <> curr_zoomlvl g0 - 1.
Proof.
  eexists. split; [reflexivity|].
  repeat split; try reflexivity; cbn; discriminate.
Qed.

(** C9: whatever events came before, an accepted reset sets the viewport to
    the bounds [__init__] was called with and the zoom level to [0]. *)
Theorem reset_restores_startup_bounds :
  forall (F : Type) (A : Arith F)
         (xmin xmax ymin ymax : F) (width height maxiter dpi : Z) (zoomfactor : F)
         (g0 : gui F) (evs : list (event F))
         (inaxes : option (F * F)),
    __init__ xmin xmax ymin ymax width height maxiter dpi zoomfactor
    = Some g0 ->
    let g := run g0 evs in
    processing g = false ->
    exists g',
      handle g (ButtonEvent (Mouse 3) inaxes)
      = Returned g' [_calc_mandelbrot g']
      /\ currdata g' = (xmin, ymin, xmax, ymax)
      /\ curr_zoomlvl g' = 0
      /\ processing g' = true.
Proof.
  intros F A xmin xmax ymin ymax width height maxiter dpi zoomfactor g0 evs inaxes
    Hinit g Hp.
  assert (Hs : same_settings g0 g) by apply run_same_settings.
  destruct Hs as (Hx0 & Hx1 & Hy0 & Hy1 & _).
  assert (H0 : MandelbrotGUI.xmin g0 = xmin /\ MandelbrotGUI.xmax g0 = xmax
               /\ MandelbrotGUI.ymin g0 = ymin /\ MandelbrotGUI.ymax g0 = ymax).
  { unfold __init__ in Hinit.
    destruct (truediv (of_int 1) zoomfactor); [|discriminate].
    injection Hinit as <-. repeat split. }
  destruct H0 as (E0 & E1 & E2 & E3).
  cbn [handle _button_released].
  unfold _button_mouse3_released. rewrite Hp. cbn [negb].
  eexists. split; [reflexivity|]. cbn.
  rewrite Hx0, Hx1, Hy0, Hy1, E0, E1, E2, E3. repeat split.
Qed.

Lemma reset_restores_startup_bounds_witness :
  exists g0 g' : gui float,
    Main.gui = Some g0
    /\ handle
         (run g0
            [zoomIn; WorkerDone [];
             navigateTo (300%float, 375%float);
             WorkerDone []])
         resetView
       = Returned g' [_calc_mandelbrot g']
    /\ currdata g'
       = ((-2)%float, (-1.25)%float, 0.5%float, 1.25%float)
    /\ curr_zoomlvl g' = 0.
Proof.
  eexists.
  destruct (reset_restores_startup_bounds float binary64
              (-2)%float 0.5%float (-1.25)%float 1.25%float 10 10 128 75
              0x1.6666666666666p-1%float _
              [zoomIn; WorkerDone [];
               navigateTo (300%float, 375%float);
               WorkerDone []]
              None eq_refl eq_refl)
    as [g' (Hh & Hd & Hz & _)].
  exists g'. split; [reflexivity|]. split; [exact Hh|]. split; [exact Hd | exact Hz].
Defined.

(** Subtracting the screen origin [0] changes nothing, on doubles (signed
    zeros, infinities and NaN included) and in exact arithmetic. *)
Lemma sub_zero_binary64 (x : float) : sub (Arith := binary64) x (of_int 0) = x.
Proof.
  change (PrimFloat.sub x 0%float = x).
  apply Prim2SF_inj. rewrite sub_spec.
  change (Prim2SF 0) with (S754_zero false).
  unfold SF64sub, SFsub.
  destruct (Prim2SF x) as [s|s| |s m e]; try reflexivity.
  destruct s; reflexivity.
Qed.

Lemma sub_zero_exact (x : R) : sub (Arith := exact) x (of_int 0) = x.
Proof. cbn. ring. Qed.

(** C6: an accepted click at [(screenX, screenY)] is mapped to the plane
    point [planeX = (screenX / pixelWidth) * width + xmin],
    [planeY = (screenY / pixelHeight) * height + ymin] of the current
    viewport, and the new viewport keeps the current width and height
    around that point: [newXmin = planeX - width / 2],
    [newYmin = planeY - height / 2], [newXmax = newXmin + width],
    [newYmax = newYmin + height].  The pixel sizes are not zero. *)
Theorem navigate_recenters_viewport :
  forall (F : Type) (A : Arith F),
    (forall x : F, sub x (of_int 0) = x) ->
    forall (g : gui F) (screenX screenY : F),
      processing g = false ->
      eqb (of_int (MandelbrotGUI.width g * MandelbrotGUI.dpi g)) (of_int 0) = false ->
      eqb (of_int (MandelbrotGUI.height g * MandelbrotGUI.dpi g)) (of_int 0) = false ->
      let pixelWidth := of_int (MandelbrotGUI.width g * MandelbrotGUI.dpi g) in
      let pixelHeight := of_int (MandelbrotGUI.height g * MandelbrotGUI.dpi g) in
      let width := cd_width g in
      let height := cd_height g in
      let planeX :=
        add (mul (div screenX pixelWidth) width)
            (item0 (currdata g)) in
      let planeY :=
        add (mul (div screenY pixelHeight) height)
            (item1 (currdata g)) in
      let newXmin := sub planeX (div width (of_int 2)) in
      let newYmin := sub planeY (div height (of_int 2)) in
      _transform_coords g (screenX, screenY) = Some (planeX, planeY)
      /\ exists g',
           handle g (navigateTo (screenX, screenY))
           = Returned g' [_calc_mandelbrot g']
           /\ currdata g'
              = (newXmin, newYmin, add newXmin width, add newYmin height)
           /\ processing g' = true
           /\ curr_zoomlvl g' = curr_zoomlvl g.
Proof.
  intros F A Hsub0 g screenX screenY Hp Hw Hh. cbv zeta.
  assert (Ht : forall g1 : gui F,
             MandelbrotGUI.width g1 = MandelbrotGUI.width g ->
             MandelbrotGUI.height g1 = MandelbrotGUI.height g ->
             MandelbrotGUI.dpi g1 = MandelbrotGUI.dpi g ->
             _transform_coords g1 (screenX, screenY)
             = Some (add (mul (div screenX
                                  (of_int (MandelbrotGUI.width g * MandelbrotGUI.dpi g)))
                              (cd_width g1))
                         (item0 (currdata g1)),
                     add (mul (div screenY
                                  (of_int (MandelbrotGUI.height g * MandelbrotGUI.dpi g)))
                              (cd_height g1))
                         (item1 (currdata g1)))).
  { intros g1 E1 E2 E3. unfold _transform_coords. cbn.
    rewrite E1, E2, E3. unfold truediv. rewrite Hw, Hh, !Hsub0. reflexivity. }
  split; [now apply Ht|].
  cbn [handle navigateTo _button_released].
  unfold _button_mouse1_released. rewrite Hp. cbn [negb].
  rewrite (Ht (set_processing g true)) by reflexivity.
  eexists. split; [reflexivity|]. cbn. repeat split.
Qed.

Lemma navigate_recenters_viewport_witness :
  exists g0 : gui float,
    Main.gui = Some g0
    /\ exists g' : gui float,
         handle g0 (navigateTo (300%float, 375%float))
         = Returned g' [_calc_mandelbrot g']
         /\ currdata g'
            = ((-2.25)%float, (-1.25)%float, 0.25%float, 1.25%float).
Proof.
  eexists. split; [reflexivity|].
  match goal with
  | |- exists g', handle ?G _ = _ /\ _ =>
      destruct (proj2 (navigate_recenters_viewport float binary64 sub_zero_binary64
                         G 300%float 375%float eq_refl eq_refl eq_refl))
        as [g' (Hh & Hd & _)]
  end.
  exists g'. split; [exact Hh|].
  rewrite Hd. vm_compute. reflexivity.
Defined.

(** In exact arithmetic the stored width and height are unchanged by an
    accepted click. *)
Lemma navigate_keeps_size_exact (g : gui R) (inaxes : option (R * R)) :
  wh_fresh g ->
  let g' := state_of
              (handle g (ButtonEvent (Mouse 1) inaxes)) in
  cd_width g' = cd_width g
  /\ cd_height g' = cd_height g.
Proof.
  intros [Hw Hh]. cbv zeta.
  cbn [handle _button_released].
  unfold _button_mouse1_released.
  destruct (processing g); cbn [negb state_of]; [tauto|].
  destruct inaxes as [xy|]; cbn [state_of]; [|tauto].
  destruct (_transform_coords (set_processing g true) xy)
    as [[px py]|]; cbn [state_of]; [|cbn; tauto].
  cbn.
  assert (H0w : (0 <= cd_width g)%R) by (rewrite Hw; apply Rabs_pos).
  assert (H0h : (0 <= cd_height g)%R) by (rewrite Hh; apply Rabs_pos).
  split.
  - match goal with |- Rabs ?e = _ =>
      replace e with (- cd_width g)%R by ring end.
    rewrite Rabs_Ropp. now apply Rabs_pos_eq.
  - match goal with |- Rabs ?e = _ =>
      replace e with (- cd_height g)%R by ring end.
    rewrite Rabs_Ropp. now apply Rabs_pos_eq.
Qed.

End Requests.

(** * The viewport controller, in exact arithmetic *)

Section ExactController.

Import MandelbrotGUI.

Local Open Scope R_scope.

Lemma ordered_exact_true (g : gui R) : ordered_exact g <-> ordered g = true.
Proof.
  unfold ordered_exact, ordered; cbn. unfold Rltb.
  destruct (Rlt_dec (item0 (currdata g)) (item2 (currdata g)));
    destruct (Rlt_dec (item1 (currdata g)) (item3 (currdata g)));
    cbn; split; intros H; try tauto; try discriminate.
Qed.

Lemma Rabs_ordered (a c : R) : a <= c -> Rabs (a - c) = c - a.
Proof. intros H. rewrite Rabs_minus_sym. apply Rabs_pos_eq. lra. Qed.

Lemma _apply_zoomin_currdata (g : gui R) :
  currdata (_apply_zoomin g) = zoomed g (zoomfactor_in g).
Proof. reflexivity. Qed.

Lemma _apply_zoomout_currdata (g : gui R) :
  currdata (_apply_zoomout g) = zoomed g (zoomfactor_out g).
Proof. reflexivity. Qed.

Lemma zoomed_ordered (g : gui R) (zf : R) :
  wh_fresh g -> ordered_exact g -> 0 < zf ->
  item0 (zoomed g zf) < item2 (zoomed g zf)
  /\ item1 (zoomed g zf) < item3 (zoomed g zf).
Proof.
  intros [Hw Hh] [Hx Hy] Hzf. unfold zoomed; cbn in *.
  rewrite Rabs_ordered in Hw, Hh by lra.
  rewrite Hw, Hh. split; nra.
Qed.

(** The zoom keeps the center and scales the half-width and the half-height
    by [zf]. *)
Lemma zoomed_geometry (g : gui R) (zf : R) :
  wh_fresh g ->
  item0 (currdata g) <= item2 (currdata g) ->
  item1 (currdata g) <= item3 (currdata g) ->
  (item0 (zoomed g zf) + item2 (zoomed g zf)) / 2
  = (item0 (currdata g) + item2 (currdata g)) / 2
  /\ (item1 (zoomed g zf) + item3 (zoomed g zf)) / 2
     = (item1 (currdata g) + item3 (currdata g)) / 2
  /\ (item2 (zoomed g zf) - item0 (zoomed g zf)) / 2
     = (item2 (currdata g) - item0 (currdata g)) / 2 * zf
  /\ (item3 (zoomed g zf) - item1 (zoomed g zf)) / 2
     = (item3 (currdata g) - item1 (currdata g)) / 2 * zf.
Proof.
  intros [Hw Hh] Hx Hy. unfold zoomed; cbn in *.
  rewrite Rabs_ordered in Hw, Hh by lra.
  rewrite Hw, Hh. repeat split; field.
Qed.

Lemma sound_set_processing (g : gui R) (b : bool) :
  sound g -> sound (set_processing g b).
Proof. intros H. exact H. Qed.

Lemma sound_zoomed (g : gui R) (zf : R) (z : Z) :
  sound g -> 0 < zf ->
  sound (set_curr_zoomlvl
           (_set_currdata (set_processing g true)
              (item0 (zoomed g zf)) (item1 (zoomed g zf))
              (item2 (zoomed g zf)) (item3 (zoomed g zf))) z).
Proof.
  intros (Ho & Hf & Hx & Hy & Hi & Hu) Hzf.
  destruct (zoomed_ordered g zf Hf Ho Hzf) as [H1 H2].
  repeat split; assumption.
Qed.

Lemma sound_reset (g : gui R) :
  sound g ->
  sound (set_curr_zoomlvl
           (_set_currdata (set_processing g true) (xmin g) (ymin g) (xmax g) (ymax g)) 0).
Proof.
  intros (Ho & Hf & Hx & Hy & Hi & Hu). repeat split; assumption.
Qed.

Lemma sound_navigate (g : gui R) (coords : R * R) :
  sound g ->
  sound (_set_currdata_d (set_processing g true)
           (_calc_new_coordinates_around (set_processing g true) coords)).
Proof.
  intros (Ho & Hf & Hx & Hy & Hi & Hu).
  destruct Ho as [Ho1 Ho2]. destruct Hf as [Hw Hh].
  assert (H0w : 0 < cd_width g) by (rewrite Hw, Rabs_ordered; lra).
  assert (H0h : 0 < cd_height g) by (rewrite Hh, Rabs_ordered; lra).
  repeat split; try assumption; cbn; lra.
Qed.

Lemma handle_sound (g : gui R) (ev : event R) :
  sound g -> sound (state_of (handle g ev)).
Proof.
  intros Hg.
  assert (Hin : 0 < zoomfactor_in g) by apply Hg.
  assert (Hout : 0 < zoomfactor_out g) by apply Hg.
  assert (Hdown : sound (state_of (_button_mousescrolldown g))).
  { unfold _button_mousescrolldown.
    destruct (processing g); cbn [negb state_of]; [exact Hg|].
    apply (sound_zoomed g (zoomfactor_in g) _ Hg Hin). }
  assert (Hup : sound (state_of (_button_mousescrollup g))).
  { unfold _button_mousescrollup.
    destruct (processing g); cbn [negb state_of]; [exact Hg|].
    apply (sound_zoomed g (zoomfactor_out g) _ Hg Hout). }
  destruct ev as [b inaxes | key | m]; cbn [handle].
  - unfold _button_released.
    destruct b as [n| |]; [|exact Hup | exact Hdown].
    destruct n as [|p|p]; try exact Hg.
    destruct p as [p|p|]; try exact Hg.
    + destruct p; try exact Hg.
      unfold _button_mouse3_released.
      destruct (processing g); cbn [negb state_of]; [exact Hg|].
      exact (sound_reset g Hg).
    + unfold _button_mouse1_released.
      destruct (processing g); cbn [negb state_of]; [exact Hg|].
      destruct inaxes as [xy|]; cbn [state_of]; [|exact Hg].
      destruct (_transform_coords (set_processing g true) xy) as [tc|];
        cbn [state_of]; [|exact (sound_set_processing g true Hg)].
      exact (sound_navigate g tc Hg).
  - unfold _key_released.
    destruct (String.eqb key "+"); [exact Hdown|].
    destruct (String.eqb key "-"); [exact Hup | exact Hg].
  - exact Hg.
Qed.

Lemma run_sound (evs : list (event R)) :
  forall g, sound g -> sound (run g evs).
Proof.
  induction evs as [|ev evs IH]; intros g Hg; cbn [run]; [exact Hg|].
  apply IH. now apply handle_sound.
Qed.

Lemma init_sound (x0 x1 y0 y1 : R) (w h m d : Z) (zf : R) (g0 : gui R) :
  x0 < x1 -> y0 < y1 -> 0 < zf ->
  __init__ x0 x1 y0 y1 w h m d zf = Some g0 -> sound g0.
Proof.
  intros Hx Hy Hzf. unfold __init__, truediv; cbn.
  rewrite Reqb_false by lra. intros [= <-].
  repeat split; cbn; try assumption.
  unfold Rdiv. rewrite Rmult_1_l. now apply Rinv_0_lt_compat.
Qed.

End ExactController.

(** * The viewport, in exact arithmetic and on doubles *)

Section Viewport.

Import MandelbrotGUI.

(** C7: an accepted zoom-in replaces the viewport by the rectangle around
    its own center [(xmin + width/2, ymin + height/2)] whose half-width and
    half-height are the old ones times [zoomfactor_in]; in exact arithmetic
    that center is the midpoint of the old and of the new rectangle, and the
    new half-extents are the old ones times the factor.  From the startup
    bounds [(-2.0, -1.25, 0.5, 1.25)] with [zoomfactor = 0.7] one zoom-in
    gives [(-1.625, -0.875, 0.125, 0.875)], on doubles exactly. *)
Theorem zoom_in_shrinks_around_center :
  (forall (F : Type) (A : Arith F) (g : gui F),
      processing g = false ->
      let half_width := div (cd_width g) (of_int 2) in
      let half_height := div (cd_height g) (of_int 2) in
      let cx := add (item0 (currdata g)) half_width in
      let cy := add (item1 (currdata g)) half_height in
      let zf := zoomfactor_in g in
      exists g',
        handle g zoomIn
        = Returned g' [_calc_mandelbrot g']
        /\ currdata g'
           = (sub cx (mul half_width zf), sub cy (mul half_height zf),
              add cx (mul half_width zf), add cy (mul half_height zf))
        /\ wh_fresh g')
  /\ (forall g : gui R,
      processing g = false ->
      wh_fresh g ->
      (item0 (currdata g)
       <= item2 (currdata g))%R ->
      (item1 (currdata g)
       <= item3 (currdata g))%R ->
      let old := currdata g in
      let new := currdata
                   (state_of (handle g zoomIn)) in
      let zf := zoomfactor_in g in
      ((item0 new + item2 new) / 2
       = (item0 old + item2 old) / 2)%R
      /\ ((item1 new + item3 new) / 2
          = (item1 old + item3 old) / 2)%R
      /\ ((item2 new - item0 new) / 2
          = (item2 old - item0 old) / 2 * zf)%R
      /\ ((item3 new - item1 new) / 2
          = (item3 old - item1 old) / 2 * zf)%R)
  /\ (exists g0 : gui float,
      Main.gui = Some g0
      /\ currdata g0
         = ((-2)%float, (-1.25)%float, 0.5%float, 1.25%float)
      /\ currdata
           (state_of (handle g0 zoomIn))
         = ((-1.625)%float, (-0.875)%float, 0.125%float, 0.875%float)).
Proof.
  split; [|split].
  - intros F A g Hp. cbv zeta.
    cbn [handle zoomIn _button_released].
    unfold _button_mousescrolldown. rewrite Hp. cbn [negb].
    eexists. split; [reflexivity|]. split; [reflexivity|]. split; reflexivity.
  - intros g Hp Hf Hx Hy. cbv zeta.
    cbn [handle zoomIn _button_released].
    unfold _button_mousescrolldown. rewrite Hp.
    cbn [negb state_of].
    exact (zoomed_geometry g (zoomfactor_in g) Hf Hx Hy).
  - eexists. split; [reflexivity|]. split; vm_compute; reflexivity.
Qed.

Lemma zoom_in_shrinks_around_center_witness :
  exists g0 : gui float,
    Main.gui = Some g0
    /\ exists g' : gui float,
         handle g0 zoomIn
         = Returned g' [_calc_mandelbrot g']
         /\ currdata g'
            = ((-1.625)%float, (-0.875)%float, 0.125%float, 0.875%float).
Proof.
  eexists. split; [reflexivity|].
  match goal with
  | |- exists g', handle ?G _ = _ /\ _ =>
      destruct (proj1 zoom_in_shrinks_around_center float binary64 G eq_refl)
        as [g' (Hh & Hd & _)]
  end.
  exists g'. split; [exact Hh|].
  rewrite Hd. vm_compute. reflexivity.
Defined.

(** C3, as amended.  In every arithmetic, doubles included, the stored width
    and height of every object the event loop reaches are those of its
    current rectangle.  In exact arithmetic, from startup bounds with
    [xmin < xmax] and [ymin < ymax] and a zoom factor above [0], the current
    rectangle keeps [xmin < xmax] and [ymin < ymax] after every finite
    sequence of events, and the stored width and height are [|xmax - xmin|]
    and [|ymax - ymin|]. *)
Theorem viewport_invariant :
  (forall (F : Type) (A : Arith F) (xmin xmax ymin ymax : F)
          (width height maxiter dpi : Z) (zoomfactor : F)
          (g0 : gui F) (evs : list (event F)),
      __init__ xmin xmax ymin ymax width height maxiter dpi zoomfactor
      = Some g0 ->
      wh_fresh (run g0 evs))
  /\ (forall (xmin xmax ymin ymax : R) (width height maxiter dpi : Z) (zoomfactor : R)
             (g0 : gui R) (evs : list (event R)),
      (xmin < xmax)%R -> (ymin < ymax)%R -> (0 < zoomfactor)%R ->
      __init__ xmin xmax ymin ymax width height maxiter dpi zoomfactor
      = Some g0 ->
      let g := run g0 evs in
      ordered g = true
      /\ (item0 (currdata g)
          < item2 (currdata g))%R
      /\ (item1 (currdata g)
          < item3 (currdata g))%R
      /\ cd_width g
         = Rabs (item2 (currdata g)
                 - item0 (currdata g))
      /\ cd_height g
         = Rabs (item3 (currdata g)
                 - item1 (currdata g))).
Proof.
  split.
  - intros F A xmin xmax ymin ymax width height maxiter dpi zoomfactor g0 evs Hinit.
    apply run_wh_fresh. exact (init_wh_fresh _ _ _ _ _ _ _ _ _ _ Hinit).
  - intros xmin xmax ymin ymax width height maxiter dpi zoomfactor g0 evs
      Hx Hy Hzf Hinit. cbv zeta.
    pose proof (run_sound evs g0 (init_sound _ _ _ _ _ _ _ _ _ _ Hx Hy Hzf Hinit))
      as (Ho & [Hw Hh] & _).
    split; [now apply ordered_exact_true|].
    destruct Ho as [Ho1 Ho2].
    split; [exact Ho1|]. split; [exact Ho2|].
    split; [rewrite Hw | rewrite Hh]; apply Rabs_minus_sym.
Qed.

Lemma viewport_invariant_witness :
  exists g0 : gui R,
    __init__ (A := exact) (-2)%R (1/2)%R (-5/4)%R (5/4)%R
                           10 10 128 75 (7/10)%R = Some g0
    /\ ordered (run g0
                  [zoomIn; WorkerDone [];
                   navigateTo (300%R, 375%R); WorkerDone [];
                   zoomOut]) = true.
Proof.
  assert (Hinit : exists g0 : gui R,
             __init__ (A := exact) (-2)%R (1/2)%R (-5/4)%R (5/4)%R
                                    10 10 128 75 (7/10)%R = Some g0).
  { unfold __init__, truediv; cbn.
    rewrite Reqb_false by lra. eexists. reflexivity. }
  destruct Hinit as [g0 Hinit]. exists g0. split; [exact Hinit|].
  apply (proj2 viewport_invariant (-2)%R (1/2)%R (-5/4)%R (5/4)%R
           10 10 128 75 (7/10)%R g0 _ ltac:(lra) ltac:(lra) ltac:(lra) Hinit).
Defined.

(** The zoom factor has to be above [0] for the ordering, in exact arithmetic
    too: [__init__] accepts [zoomfactor = -1/2], and one zoom-in then swaps
    the two sides of the rectangle. *)
Lemma viewport_order_needs_positive_zoomfactor :
  exists g0 : gui R,
    __init__ (A := exact) (-2)%R (1/2)%R (-5/4)%R (5/4)%R 10 10 128 75 (-1/2)%R
    = Some g0
    /\ ordered_exact g0
    /\ currdata (run g0 [zoomIn]) = ((-1/8)%R, (5/8)%R, (-11/8)%R, (-5/8)%R).
Proof.
  unfold __init__, truediv; cbn.
  rewrite Reqb_false by lra. eexists. split; [reflexivity|].
  split; [unfold ordered_exact; cbn; lra|].
  cbn.
  replace (Rabs (-2 - 1 / 2)) with (5/2)%R
    by (rewrite Rabs_ordered by lra; lra).
  replace (Rabs (-5 / 4 - 5 / 4)) with (5/2)%R
    by (rewrite Rabs_ordered by lra; lra).
  f_equal; [f_equal; [f_equal|]|]; lra.
Qed.

Set Warnings "-inexact-float".

(** C3, as stated, fails on doubles.  With the startup bounds of [Main.py]
    and [zoomfactor = 0.5], the viewport is ordered at first; after 54
    zoom-ins, each followed by the end of its pass, the rectangle has
    shrunk below the spacing of the doubles around its center:
    [xmin = xmax = -0.75].  And from the ordered startup bounds
    [(-1e308, -1, 1e308, 1)], whose width overflows, a single zoom-in
    leaves [xmin = nan]. *)
Lemma viewport_order_lost_binary64 :
  (exists g0 : gui float,
      __init__ (A := binary64)
        (-2.0)%float 0.5%float (-1.25)%float 1.25%float 10 10 128 75 0.5%float
      = Some g0
      /\ ordered g0 = true
      /\ processing (run g0 (zoom_in_times 54)) = false
      /\ curr_zoomlvl (run g0 (zoom_in_times 54)) = 54
      /\ item0
           (currdata (run g0 (zoom_in_times 54)))
         = (-0.75)%float
      /\ item2
           (currdata (run g0 (zoom_in_times 54)))
         = (-0.75)%float
      /\ ordered (run g0 (zoom_in_times 54)) = false)
  /\ (exists g0 : gui float,
      __init__ (A := binary64)
        (-1e308)%float 1e308%float (-1)%float 1%float 10 10 128 75 0.7%float
      = Some g0
      /\ ordered g0 = true
      /\ cd_width g0 = infinity
      /\ currdata (run g0 [zoomIn])
         = (nan, (-0.7)%float, infinity, 0.7%float)
      /\ ordered (run g0 [zoomIn]) = false).
Proof.
  split; eexists; (split; [reflexivity|]); repeat split; vm_compute; reflexivity.
Qed.

(** One step earlier the rectangle is still ordered, two doubles wide. *)
Lemma viewport_order_before_loss_binary64 :
  exists g0 : gui float,
    __init__ (A := binary64)
      (-2.0)%float 0.5%float (-1.25)%float 1.25%float 10 10 128 75 0.5%float
    = Some g0
    /\ ordered (run g0 (zoom_in_times 53)) = true.
Proof.
  eexists. split; [reflexivity|]. vm_compute. reflexivity.
Qed.

(** C8, as amended: in exact arithmetic, for a viewport with [xmin <= xmax]
    and [ymin <= ymax], a zoom factor above [0] and
    [zoomfactor_out = 1 / zoomfactor_in], a zoom-in followed (once its pass
    has ended) by a zoom-out gives back the bounds it started from,
    exactly. *)
Theorem zoom_in_then_out_exact :
  forall (g : gui R) (m : MandelbrotOps.grid),
    processing g = false ->
    wh_fresh g ->
    (item0 (currdata g)
     <= item2 (currdata g))%R ->
    (item1 (currdata g)
     <= item3 (currdata g))%R ->
    (0 < zoomfactor_in g)%R ->
    zoomfactor_out g = (1 / zoomfactor_in g)%R ->
    currdata
      (run g [zoomIn; WorkerDone m;
                            zoomOut])
    = currdata g.
Proof.
  intros g m Hp [Hw Hh] Hx Hy Hzf Hout.
  cbn [run handle zoomIn
         zoomOut _button_released].
  unfold _button_mousescrolldown. rewrite Hp.
  cbn [negb state_of].
  unfold _button_mousescrollup.
  cbn [processing _calc_mandelbrot_callback
         set_processing negb state_of].
  destruct g as [x0 x1 y0 y1 w h mi d p lvl zi zo [[[a b] c] e] cw ch ms].
  cbn in *. subst zo.
  rewrite Rabs_ordered in Hw, Hh by lra. subst cw ch.
  assert (Hwv : (0 <= (c - a) / 2 * zi)%R) by nra.
  assert (Hhv : (0 <= (e - b) / 2 * zi)%R) by nra.
  replace (a + (c - a) / 2 - (c - a) / 2 * zi - (a + (c - a) / 2 + (c - a) / 2 * zi))%R
    with (- (2 * ((c - a) / 2 * zi)))%R by ring.
  replace (b + (e - b) / 2 - (e - b) / 2 * zi - (b + (e - b) / 2 + (e - b) / 2 * zi))%R
    with (- (2 * ((e - b) / 2 * zi)))%R by ring.
  rewrite !Rabs_Ropp, !Rabs_pos_eq by lra.
  repeat f_equal; field; lra.
Qed.

Lemma zoom_in_then_out_exact_witness :
  exists g0 : gui R,
    __init__ (A := exact) 0%R 3%R 0%R 3%R 10 10 128 75 (7/10)%R
    = Some g0
    /\ currdata
         (run g0 [zoomIn; WorkerDone [];
                                zoomOut])
       = (0%R, 0%R, 3%R, 3%R).
Proof.
  assert (Hinit : exists g0 : gui R,
             __init__ (A := exact) 0%R 3%R 0%R 3%R 10 10 128 75 (7/10)%R
             = Some g0
             /\ processing g0 = false
             /\ currdata g0 = (0%R, 0%R, 3%R, 3%R)
             /\ zoomfactor_in g0 = (7/10)%R
             /\ zoomfactor_out g0 = (1 / (7/10))%R).
  { unfold __init__, truediv; cbn.
    rewrite Reqb_false by lra. eexists. repeat split. }
  destruct Hinit as [g0 (Hinit & Hp & Hd & Hzi & Hzo)].
  exists g0. split; [exact Hinit|].
  rewrite <- Hd.
  apply (zoom_in_then_out_exact g0 [] Hp (init_wh_fresh _ _ _ _ _ _ _ _ _ _ Hinit)).
  - rewrite Hd. cbn. lra.
  - rewrite Hd. cbn. lra.
  - rewrite Hzi. lra.
  - now rewrite Hzo, Hzi.
Defined.

(** C8, as stated, fails on doubles.  From the viewport [(0, 0, 3, 3)] with
    [zoomfactor = 0.7], a zoom-in followed by a zoom-out brings [xmin] and
    [ymin] back as [2^-52] instead of [0]: that is not within a relative
    tolerance of [1e-9] of [0], nor within any relative tolerance below
    [1].  And from the viewport [(-1e308, -1, 1e308, 1)], whose width
    overflows, [xmin] and [xmax] come back as [nan]. *)
Lemma zoom_round_trip_not_close_binary64 :
  (exists g0 : gui float,
      __init__ (A := binary64)
        0%float 3%float 0%float 3%float 10 10 128 75 0.7%float
      = Some g0
      /\ zoomfactor_out g0 = PrimFloat.div 1%float 0.7%float
      /\ currdata g0 = (0%float, 0%float, 3%float, 3%float)
      /\ currdata
           (run g0 [zoomIn; WorkerDone [];
                                  zoomOut])
         = (0x1p-52%float, 0x1p-52%float, 3%float, 3%float)
      /\ isclose 0x1p-52%float 0%float 1e-9%float = false
      /\ isclose4
           (currdata
              (run g0 [zoomIn; WorkerDone [];
                                     zoomOut]))
           (currdata g0) 1e-9%float = false)
  /\ (exists g0 : gui float,
      __init__ (A := binary64)
        (-1e308)%float 1e308%float (-1)%float 1%float 10 10 128 75 0.7%float
      = Some g0
      /\ zoomfactor_out g0 = PrimFloat.div 1%float 0.7%float
      /\ currdata g0 = ((-1e308)%float, (-1)%float, 1e308%float, 1%float)
      /\ item0
           (currdata
              (run g0 [zoomIn; WorkerDone [];
                                     zoomOut]))
         = nan
      /\ item2
           (currdata
              (run g0 [zoomIn; WorkerDone [];
                                     zoomOut]))
         = nan
      /\ isclose4
           (currdata
              (run g0 [zoomIn; WorkerDone [];
                                     zoomOut]))
           (currdata g0) 1e-9%float = false).
Proof.
  split; eexists; (split; [reflexivity|]); repeat split; vm_compute; reflexivity.
Qed.

(** From the settings of [Main.py] the round trip is exact on doubles too. *)
Lemma zoom_round_trip_main_binary64 :
  exists g0 : gui float,
    Main.gui = Some g0
    /\ currdata
         (run g0 [zoomIn; WorkerDone [];
                                zoomOut])
       = currdata g0.
Proof.
  eexists. split; [reflexivity|]. vm_compute. reflexivity.
Qed.

Set Warnings "+inexact-float".

End Viewport.

(** * Further properties of the kernel *)

Section KernelResults.

Import MandelbrotOps.

Context {F : Type} {A : Arith F}.
Variable hypot : F -> F -> F.

(** What the loop returns, read on the orbit: [0] with no escape in the
    [fuel] iterations, or the loop variable at the first escape. *)
Lemma mandelbrot_loop_cases (c : complex F) (horizon : F) :
  forall (fuel : nat) (n : Z) (k : nat),
    let r := mandelbrot_loop hypot fuel n (orbit c k) c horizon in
    (r = 0
     /\ forall i, (i < fuel)%nat -> escaped hypot (orbit c (k + i)) horizon = false)
    \/ (exists m, (m < fuel)%nat /\ r = n + Z.of_nat m
                  /\ escaped hypot (orbit c (k + m)) horizon = true
                  /\ forall i, (i < m)%nat ->
                               escaped hypot (orbit c (k + i)) horizon = false).
Proof.
  induction fuel as [|fuel IH]; intros n k; cbn [mandelbrot_loop].
  - left. split; [reflexivity|]. intros i Hi. lia.
  - destruct (gtb (cabs hypot (orbit c k)) horizon) eqn:Hesc.
    + right. exists 0%nat. rewrite Nat.add_0_r.
      repeat split; [lia | lia | exact Hesc | intros i Hi; lia].
    + change (cadd (cmul (orbit c k) (orbit c k)) c) with (orbit c (S k)).
      destruct (IH (n + 1) (S k)) as [[Hr Hnone] | [m (Hm & Hr & Hat & Hbefore)]].
      * left. split; [exact Hr|]. intros i Hi. destruct i as [|i].
        -- now rewrite Nat.add_0_r.
        -- replace (k + S i)%nat with (S k + i)%nat by lia. apply Hnone. lia.
      * right. exists (S m). split; [lia|]. split; [lia|].
        split; [now replace (k + S m)%nat with (S k + m)%nat by lia|].
        intros i Hi. destruct i as [|i].
        -- now rewrite Nat.add_0_r.
        -- replace (k + S i)%nat with (S k + i)%nat by lia. apply Hbefore. lia.
Qed.

Lemma mandelbrot_cases (c : complex F) (maxiter : Z) (horizon : F) :
  let r := mandelbrot hypot c maxiter horizon in
  (r = 0
   /\ forall k, Z.of_nat k < maxiter -> escaped hypot (orbit c k) horizon = false)
  \/ (exists m, Z.of_nat m < maxiter /\ r = Z.of_nat m
                /\ escaped hypot (orbit c m) horizon = true
                /\ forall i, (i < m)%nat -> escaped hypot (orbit c i) horizon = false).
Proof.
  cbv zeta. unfold mandelbrot.
  destruct (mandelbrot_loop_cases c horizon (Z.to_nat maxiter) 0 0)
    as [[Hr Hnone] | [m (Hm & Hr & Hat & Hbefore)]]; cbn [orbit Nat.add] in *.
  - left. split; [exact Hr|]. intros k Hk. apply (Hnone k). lia.
  - right. exists m. repeat split; [lia | lia | exact Hat | exact Hbefore].
Qed.

(** Two points whose orbits leave the horizon at the same iterations have
    the same result. *)
Lemma mandelbrot_loop_same_escapes (c c' : complex F) (horizon : F) :
  (forall i, escaped hypot (orbit c i) horizon = escaped hypot (orbit c' i) horizon) ->
  forall (fuel : nat) (n : Z) (k : nat),
    mandelbrot_loop hypot fuel n (orbit c k) c horizon
    = mandelbrot_loop hypot fuel n (orbit c' k) c' horizon.
Proof.
  intros Hsame. induction fuel as [|fuel IH]; intros n k; [reflexivity|].
  cbn [mandelbrot_loop].
  pose proof (Hsame k) as Hk. unfold escaped in Hk. rewrite Hk.
  destruct (gtb (cabs hypot (orbit c' k)) horizon); [reflexivity|].
  exact (IH (n + 1) (S k)).
Qed.

(** X1: a result above [0] is the first escape: it is below [maxiter], the
    orbit of [c] is outside the horizon at that iteration and inside at
    every earlier one. *)
Theorem mandelbrot_positive_is_first_escape :
  forall (c : complex F) (maxiter : Z) (horizon : F),
    0 < mandelbrot hypot c maxiter horizon ->
    let n := Z.to_nat (mandelbrot hypot c maxiter horizon) in
    mandelbrot hypot c maxiter horizon < maxiter
    /\ escaped hypot (orbit c n) horizon = true
    /\ forall k, (k < n)%nat -> escaped hypot (orbit c k) horizon = false.
Proof.
  intros c maxiter horizon Hpos. cbv zeta.
  destruct (mandelbrot_cases c maxiter horizon)
    as [[Hr _] | [m (Hm & Hr & Hat & Hbefore)]]; [lia|].
  rewrite Hr, Nat2Z.id. repeat split; [lia | exact Hat | exact Hbefore].
Qed.

(** X2: the result is [0] in two cases only, which it does not tell apart:
    [c] itself is outside the horizon, or the orbit stays inside for all of
    the [maxiter] iterations (none at all when [maxiter <= 0]). *)
Theorem mandelbrot_zero_iff :
  forall (c : complex F) (maxiter : Z) (horizon : F),
    mandelbrot hypot c maxiter horizon = 0
    <-> (escaped hypot c horizon = true
         \/ forall k, Z.of_nat k < maxiter ->
                      escaped hypot (orbit c k) horizon = false).
Proof.
  intros c maxiter horizon. split.
  - intros H0.
    destruct (mandelbrot_cases c maxiter horizon)
      as [[_ Hnone] | [m (Hm & Hr & Hat & _)]]; [now right|].
    left. assert (m = 0%nat) by lia. subst m. exact Hat.
  - intros [Hesc | Hnone].
    + destruct (Z_lt_le_dec 0 maxiter) as [Hm | Hm].
      * apply (mandelbrot_first_escape hypot c maxiter horizon 0);
          [lia | exact Hesc | intros k Hk; lia].
      * unfold mandelbrot. now replace (Z.to_nat maxiter) with 0%nat by lia.
    + now apply mandelbrot_never_escapes.
Qed.

(** X3: a result above [0] does not depend on the iteration cap any more:
    every larger [maxiter] gives the same result. *)
Theorem mandelbrot_positive_is_stable :
  forall (c : complex F) (maxiter maxiter' : Z) (horizon : F),
    0 < mandelbrot hypot c maxiter horizon ->
    maxiter <= maxiter' ->
    mandelbrot hypot c maxiter' horizon = mandelbrot hypot c maxiter horizon.
Proof.
  intros c maxiter maxiter' horizon Hpos Hle.
  destruct (mandelbrot_cases c maxiter horizon)
    as [[Hr _] | [m (Hm & Hr & Hat & Hbefore)]]; [lia|].
  rewrite Hr. apply mandelbrot_first_escape; [lia | exact Hat | exact Hbefore].
Qed.

End KernelResults.

Section KernelExact.

Import MandelbrotOps.

Local Open Scope R_scope.

Lemma mandelbrot_two_exact (maxiter : Z) :
  (1 < maxiter)%Z ->
  mandelbrot (A := exact) Rhypot (Complex 2%R 0%R) maxiter default_horizon = 1%Z.
Proof.
  intros Hm. apply (mandelbrot_first_escape Rhypot _ maxiter _ 1).
  - lia.
  - apply two_escapes_at_1_exact.
  - intros k Hk. replace k with 0%nat by lia. apply two_not_escaped_exact.
Qed.

Lemma mandelbrot_positive_is_first_escape_witness :
  (mandelbrot (A := exact) Rhypot (Complex 2%R 0%R) 50 default_horizon < 50)%Z
  /\ escaped (A := exact) Rhypot
       (orbit (Complex 2%R 0%R)
          (Z.to_nat (mandelbrot (A := exact) Rhypot (Complex 2%R 0%R) 50 default_horizon)))
       default_horizon = true.
Proof.
  assert (Hpos : (0 < mandelbrot (A := exact) Rhypot (Complex 2%R 0%R) 50
                         default_horizon)%Z)
    by (rewrite mandelbrot_two_exact; lia).
  destruct (mandelbrot_positive_is_first_escape Rhypot (Complex 2%R 0%R) 50
              default_horizon Hpos) as (H1 & H2 & _).
  split; [exact H1 | exact H2].
Defined.

Lemma mandelbrot_positive_is_stable_witness :
  mandelbrot (A := exact) Rhypot (Complex 2%R 0%R) 512 default_horizon
  = mandelbrot (A := exact) Rhypot (Complex 2%R 0%R) 50 default_horizon.
Proof.
  apply mandelbrot_positive_is_stable.
  - rewrite mandelbrot_two_exact; lia.
  - lia.
Defined.

(** Outside the horizon [2]: the squared modulus is above [4]. *)
Lemma escaped_exact_iff (z : complex R) :
  escaped (A := exact) Rhypot z default_horizon = true <-> 4 < norm2 z.
Proof.
  unfold escaped, cabs, gtb, Rhypot, norm2; cbn. unfold Rltb.
  assert (H2 : 2 = R_sqrt.sqrt 4)
    by (replace 4 with (2 * 2) by ring; symmetry; apply sqrt_square; lra).
  assert (Hn : 0 <= real z * real z + imag z * imag z) by nra.
  destruct (Rlt_dec 2 (R_sqrt.sqrt (real z * real z + imag z * imag z))) as [Hlt | Hge].
  - split; [intros _ | reflexivity].
    rewrite H2 in Hlt. apply sqrt_lt_0_alt in Hlt. exact Hlt.
  - split; [discriminate|]. intros H4. exfalso. apply Hge.
    rewrite H2. apply sqrt_lt_1_alt. lra.
Qed.

Lemma orbit_conj (c : complex R) (k : nat) :
  orbit (A := exact) (conj c) k = conj (orbit (A := exact) c k).
Proof.
  induction k as [|k IH]; [reflexivity|].
  cbn [orbit]. rewrite IH. unfold conj, cadd, cmul; cbn. f_equal; ring.
Qed.

Lemma cabs_conj (z : complex R) : cabs Rhypot (conj z) = cabs Rhypot z.
Proof.
  unfold cabs, conj, Rhypot; cbn. f_equal. ring.
Qed.

Lemma mandelbrot_conj (c : complex R) (maxiter : Z) (horizon : R) :
  mandelbrot (A := exact) Rhypot (conj c) maxiter horizon
  = mandelbrot (A := exact) Rhypot c maxiter horizon.
Proof.
  unfold mandelbrot.
  assert (Hsame : forall i,
             escaped (A := exact) Rhypot (orbit (conj c) i) horizon
             = escaped (A := exact) Rhypot (orbit c i) horizon).
  { intros i. unfold escaped. now rewrite orbit_conj, cabs_conj. }
  exact (mandelbrot_loop_same_escapes Rhypot (conj c) c horizon Hsame
           (Z.to_nat maxiter) 0%Z 0%nat).
Qed.

(** X4: in exact arithmetic the kernel gives a point and its complex
    conjugate the same result, for every iteration cap and every horizon:
    the sampled set is symmetric about the real axis. *)
Theorem mandelbrot_conjugate_exact :
  forall (c : complex R) (maxiter : Z) (horizon : R),
    mandelbrot (A := exact) Rhypot (conj c) maxiter horizon
    = mandelbrot (A := exact) Rhypot c maxiter horizon.
Proof.
  intros c maxiter horizon. apply mandelbrot_conj.
Qed.

(** One step of the orbit from a point outside the horizon [2] and at least
    as far from the origin as [c] goes further out. *)
Lemma norm2_step_grows (z c : complex R) :
  4 < norm2 z -> norm2 c <= norm2 z ->
  norm2 z < norm2 (cadd (A := exact) (cmul z z) c).
Proof.
  destruct z as [a b], c as [p q]. unfold norm2, cadd, cmul; cbn.
  intros H4 Hc.
  set (N := a * a + b * b) in *. set (M := p * p + q * q) in *.
  assert (HN : 0 <= N) by (unfold N; nra).
  assert (HM : 0 <= M) by (unfold M; nra).
  pose proof (sqrt_sqrt N HN) as Hs. pose proof (sqrt_sqrt M HM) as Ht.
  pose proof (sqrt_pos N) as Hs0. pose proof (sqrt_pos M) as Ht0.
  pose proof (sqrt_le_1 M N HM HN Hc) as Hts.
  set (s := R_sqrt.sqrt N) in *. set (t := R_sqrt.sqrt M) in *.
  assert (Hs2 : 2 < s) by nra.
  set (X := (a * a - b * b) * p + 2 * a * b * q).
  assert (Hcs : X * X <= N * N * M).
  { assert (Hid : N * N * M - X * X
                  = ((a * a - b * b) * q - 2 * a * b * p)
                    * ((a * a - b * b) * q - 2 * a * b * p))
      by (unfold N, M, X; ring).
    pose proof (Rle_0_sqr ((a * a - b * b) * q - 2 * a * b * p)) as Hsq.
    unfold Rsqr in Hsq. lra. }
  assert (HX : - (s * s * t) <= X).
  { destruct (Rle_lt_dec (- (s * s * t)) X) as [Hle | Hlt]; [exact Hle|].
    exfalso.
    assert (Hst : 0 <= s * s * t) by nra.
    assert (Hlt2 : (s * s * t) * (s * s * t) < X * X) by nra.
    assert (Heq : (s * s * t) * (s * s * t) = N * N * M)
      by (rewrite <- Hs, <- Ht; ring).
    lra. }
  replace ((a * a - b * b + p) * (a * a - b * b + p)
           + (a * b + b * a + q) * (a * b + b * a + q))
    with (N * N + M + 2 * X) by (unfold N, M, X; ring).
  assert (Hlow : (s * s - t) * (s * s - t) <= N * N + M + 2 * X).
  { assert (Hexp : (s * s - t) * (s * s - t)
                   = (s * s) * (s * s) + t * t - 2 * (s * s * t)) by ring.
    rewrite Hexp, Hs, Ht. rewrite Hs in HX. lra. }
  assert (Hd : s < s * s - t) by nra.
  assert (Hd2 : s * s < (s * s - t) * (s * s - t)) by nra.
  lra.
Qed.

Lemma orbit_outside_c_exact (c : complex R) :
  4 < norm2 c -> forall k, norm2 c <= norm2 (orbit (A := exact) c k).
Proof.
  intros Hc. induction k as [|k IH]; [cbn; lra|].
  cbn [orbit]. pose proof (norm2_step_grows (orbit c k) c) as Hg. lra.
Qed.

Lemma escaped_step_exact (c : complex R) (k : nat) :
  4 < norm2 (orbit (A := exact) c k) ->
  norm2 (orbit (A := exact) c k) < norm2 (orbit (A := exact) c (S k)).
Proof.
  intros Hk. cbn [orbit]. apply norm2_step_grows; [exact Hk|].
  destruct (Rle_lt_dec (norm2 c) 4) as [Hc | Hc]; [lra|].
  now apply orbit_outside_c_exact.
Qed.

(** X5: in exact arithmetic, with the default horizon [2], an orbit that has
    left the horizon never comes back, and its modulus grows at every
    further step: returning at the first escape loses nothing. *)
Theorem escaped_orbit_stays_outside_exact :
  forall (c : complex R) (k m : nat),
    escaped (A := exact) Rhypot (orbit c k) default_horizon = true ->
    escaped (A := exact) Rhypot (orbit c (k + m)) default_horizon = true
    /\ norm2 (orbit (A := exact) c k) <= norm2 (orbit (A := exact) c (k + m)).
Proof.
  intros c k m Hk. apply escaped_exact_iff in Hk.
  induction m as [|m [IH1 IH2]].
  - rewrite Nat.add_0_r. split; [now apply escaped_exact_iff | lra].
  - apply escaped_exact_iff in IH1.
    replace (k + S m)%nat with (S (k + m)) by lia.
    pose proof (escaped_step_exact c (k + m) IH1) as Hstep.
    split; [apply escaped_exact_iff|]; lra.
Qed.

Lemma escaped_orbit_stays_outside_exact_witness :
  escaped (A := exact) Rhypot (orbit (Complex 2%R 0%R) (1 + 7)) default_horizon = true.
Proof.
  apply (escaped_orbit_stays_outside_exact (Complex 2%R 0%R) 1 7).
  apply two_escapes_at_1_exact.
Defined.

End KernelExact.

(** * Further properties of the controller, in every arithmetic *)

Section Passes.

Import MandelbrotGUI.

Context {F : Type} {A : Arith F}.
Variable hypot : F -> F -> F.
Variable linspace : F -> F -> Z -> list F.

(** X6: the pass [_calc_mandelbrot] starts samples the current viewport,
    [currdata[0]] to [currdata[2]] in [x] and [currdata[1]] to [currdata[3]]
    in [y]; when the pixel sizes [width * dpi] and [height * dpi] the click
    transform divides by are not negative, the grid it hands to the
    callback has that many rows and cells per row. *)
Theorem pass_samples_current_viewport :
  forall g : gui F,
    0 <= width g * dpi g ->
    0 <= height g * dpi g ->
    GUIWorker.run hypot linspace (_calc_mandelbrot g)
    = MandelbrotOps.mandelbrot_set hypot linspace
        (item0 (currdata g)) (item2 (currdata g))
        (item1 (currdata g)) (item3 (currdata g))
        (width g * dpi g) (height g * dpi g) (maxiter g)
    /\ exists n3 : MandelbrotOps.grid,
         GUIWorker.run hypot linspace (_calc_mandelbrot g) = Some n3
         /\ List.length n3 = Z.to_nat (width g * dpi g)
         /\ forall row, In row n3 -> List.length row = Z.to_nat (height g * dpi g).
Proof.
  intros g Hw Hh.
  unfold GUIWorker.run, _calc_mandelbrot, MandelbrotOps.mandelbrot_set_for_image.
  cbn [GUIWorker.xmin GUIWorker.xmax GUIWorker.ymin GUIWorker.ymax
         GUIWorker.width GUIWorker.height GUIWorker.maxiter GUIWorker.dpi].
  rewrite (Z.mul_comm (dpi g) (width g)), (Z.mul_comm (dpi g) (height g)).
  split; [reflexivity|].
  unfold MandelbrotOps.mandelbrot_set.
  replace ((width g * dpi g <? 0) || (height g * dpi g <? 0)) with false
    by (symmetry; apply orb_false_intro; apply Z.ltb_ge; lia).
  cbv zeta. eexists. split; [reflexivity|].
  split; [now rewrite length_map, length_seq|].
  intros row Hrow. apply in_map_iff in Hrow. destruct Hrow as [i [<- _]].
  now rewrite length_map, length_seq.
Qed.

(** X7: what the dispatch ignores.  A mouse button other than 1 and 3, a
    click of button 1 outside the plot and a key other than [+] and [-]
    leave the object as it is and start nothing, idle or not; the keys [+]
    and [-] do exactly what the wheel does, down and up. *)
Theorem dispatch_ignores_the_rest :
  forall g : gui F,
    (forall n inaxes, n <> 1 -> n <> 3 ->
                      handle g (ButtonEvent (Mouse n) inaxes) = Returned g [])
    /\ handle g (ButtonEvent (Mouse 1) None) = Returned g []
    /\ (forall key, key <> "+"%string -> key <> "-"%string ->
                    handle g (KeyEvent key) = Returned g [])
    /\ (forall inaxes,
          handle g (KeyEvent "+") = handle g (ButtonEvent Down inaxes)
          /\ handle g (KeyEvent "-") = handle g (ButtonEvent Up inaxes)).
Proof.
  intros g. split; [|split; [|split]].
  - intros n inaxes H1 H3. cbn [handle]. unfold _button_released.
    destruct n as [|p|p]; try reflexivity.
    destruct p as [p|p|]; try reflexivity; [|contradiction].
    destruct p; try reflexivity. contradiction.
  - cbn [handle _button_released]. unfold _button_mouse1_released.
    destruct (processing g); reflexivity.
  - intros key Hp Hm. cbn [handle]. unfold _key_released.
    apply not_eq_sym in Hp. apply not_eq_sym in Hm.
    apply String.eqb_neq in Hp. apply String.eqb_neq in Hm.
    rewrite String.eqb_sym in Hp. rewrite String.eqb_sym in Hm.
    now rewrite Hp, Hm.
  - intros inaxes. split; reflexivity.
Qed.

(** X8: no event changes the viewport or the zoom level without starting a
    pass for the new viewport.  An event either starts nothing and leaves
    the rectangle, its stored size and the zoom level as they were, or it
    was accepted by an idle object, starts exactly one pass, the one
    [_calc_mandelbrot] makes of the new viewport, and leaves [processing]
    set. *)
Theorem viewport_changes_only_with_a_pass :
  forall (g : gui F) (ev : event F),
    let g' := state_of (handle g ev) in
    (started_by (handle g ev) = []
     /\ currdata g' = currdata g
     /\ cd_width g' = cd_width g /\ cd_height g' = cd_height g
     /\ curr_zoomlvl g' = curr_zoomlvl g)
    \/ (processing g = false
        /\ started_by (handle g ev) = [_calc_mandelbrot g']
        /\ processing g' = true).
Proof.
  intros g ev. cbv zeta.
  assert (Hdown : let g' := state_of (_button_mousescrolldown g) in
            (started_by (_button_mousescrolldown g) = []
             /\ currdata g' = currdata g
             /\ cd_width g' = cd_width g /\ cd_height g' = cd_height g
             /\ curr_zoomlvl g' = curr_zoomlvl g)
            \/ (processing g = false
                /\ started_by (_button_mousescrolldown g) = [_calc_mandelbrot g']
                /\ processing g' = true)).
  { unfold _button_mousescrolldown.
    destruct (processing g); cbn [negb state_of started_by];
      [left | right]; repeat split. }
  assert (Hup : let g' := state_of (_button_mousescrollup g) in
            (started_by (_button_mousescrollup g) = []
             /\ currdata g' = currdata g
             /\ cd_width g' = cd_width g /\ cd_height g' = cd_height g
             /\ curr_zoomlvl g' = curr_zoomlvl g)
            \/ (processing g = false
                /\ started_by (_button_mousescrollup g) = [_calc_mandelbrot g']
                /\ processing g' = true)).
  { unfold _button_mousescrollup.
    destruct (processing g); cbn [negb state_of started_by];
      [left | right]; repeat split. }
  destruct ev as [b inaxes | key | m]; cbn [handle].
  - unfold _button_released.
    destruct b as [n| |]; [|exact Hup | exact Hdown].
    destruct n as [|p|p]; try solve [left; repeat split].
    destruct p as [p|p|]; try solve [left; repeat split].
    + destruct p; try solve [left; repeat split].
      unfold _button_mouse3_released.
      destruct (processing g); cbn [negb state_of started_by];
        [left | right]; repeat split.
    + unfold _button_mouse1_released.
      destruct (processing g); cbn [negb state_of started_by];
        [left; repeat split|].
      destruct inaxes as [xy|]; cbn [state_of started_by]; [|left; repeat split].
      destruct (_transform_coords (set_processing g true) xy);
        cbn [state_of started_by]; [right | left]; repeat split.
  - unfold _key_released.
    destruct (String.eqb key "+"); [exact Hdown|].
    destruct (String.eqb key "-"); [exact Hup | left; repeat split].
  - left. repeat split.
Qed.

(** Requests that reach an object whose flag is set change nothing. *)
Lemma run_requests_while_processing (evs : list (event F)) :
  forall g : gui F,
    processing g = true ->
    (forall ev, In ev evs -> is_request ev = true) ->
    run g evs = g.
Proof.
  induction evs as [|ev evs IH]; intros g Hp Hreq; [reflexivity|].
  cbn [run].
  rewrite (handle_while_processing g ev Hp (Hreq ev (or_introl eq_refl))).
  cbn [state_of]. apply IH; [exact Hp|].
  intros ev' Hin. apply Hreq. now right.
Qed.

(** X10: [_initgui] starts the first pass without setting [processing], so
    a zoom or a reset that arrives before that pass has ended is accepted
    and starts a second pass beside it. *)
Theorem first_pass_does_not_block :
  forall (xmin xmax ymin ymax : F) (width height maxiter dpi : Z) (zoomfactor : F)
         (g0 : gui F) (ev : event F),
    __init__ xmin xmax ymin ymax width height maxiter dpi zoomfactor = Some g0 ->
    ev = zoomIn \/ ev = zoomOut \/ ev = resetView ->
    let g := state_of (_initgui g0) in
    started_by (_initgui g0) = [_calc_mandelbrot g0]
    /\ processing g = false
    /\ started_by (handle g ev) = [_calc_mandelbrot (state_of (handle g ev))]
    /\ processing (state_of (handle g ev)) = true.
Proof.
  intros xmin xmax ymin ymax width height maxiter dpi zoomfactor g0 ev Hinit Hev.
  assert (Hp : processing g0 = false).
  { unfold __init__ in Hinit.
    destruct (truediv (of_int 1) zoomfactor); [|discriminate].
    now injection Hinit as <-. }
  cbv zeta. cbn [_initgui state_of started_by].
  split; [reflexivity|]. split; [exact Hp|].
  destruct Hev as [-> | [-> | ->]];
    cbn [handle zoomIn zoomOut resetView _button_released];
    unfold _button_mousescrolldown, _button_mousescrollup, _button_mouse3_released;
    rewrite Hp; cbn [negb state_of started_by]; split; reflexivity.
Qed.

Lemma run_app (l1 l2 : list (event F)) :
  forall g : gui F, run g (l1 ++ l2) = run (run g l1) l2.
Proof.
  induction l1 as [|ev l1 IH]; intros g; [reflexivity|].
  cbn [app run]. apply IH.
Qed.

Lemma zoom_in_round_bookkeeping (g : gui F) :
  processing g = false ->
  let g1 := state_of (handle (state_of (handle g zoomIn)) (WorkerDone [])) in
  processing g1 = false /\ curr_zoomlvl g1 = curr_zoomlvl g + 1.
Proof.
  intros Hp. cbv zeta. cbn [handle zoomIn _button_released].
  unfold _button_mousescrolldown. rewrite Hp. split; reflexivity.
Qed.

Lemma zoom_out_round_bookkeeping (g : gui F) :
  processing g = false ->
  let g1 := state_of (handle (state_of (handle g zoomOut)) (WorkerDone [])) in
  processing g1 = false /\ curr_zoomlvl g1 = curr_zoomlvl g - 1.
Proof.
  intros Hp. cbv zeta. cbn [handle zoomOut _button_released].
  unfold _button_mousescrollup. rewrite Hp. split; reflexivity.
Qed.

Lemma zoom_in_round_viewport (g : gui F) :
  processing g = false ->
  let g1 := state_of (handle (state_of (handle g zoomIn)) (WorkerDone [])) in
  currdata g1 = currdata (_apply_zoomin g)
  /\ wh_fresh g1
  /\ zoomfactor_in g1 = zoomfactor_in g /\ zoomfactor_out g1 = zoomfactor_out g.
Proof.
  intros Hp. cbv zeta. cbn [handle zoomIn _button_released].
  unfold _button_mousescrolldown. rewrite Hp.
  split; [reflexivity|]. split; [split; reflexivity|]. split; reflexivity.
Qed.

Lemma zoom_out_round_viewport (g : gui F) :
  processing g = false ->
  let g1 := state_of (handle (state_of (handle g zoomOut)) (WorkerDone [])) in
  currdata g1 = currdata (_apply_zoomout g)
  /\ wh_fresh g1
  /\ zoomfactor_in g1 = zoomfactor_in g /\ zoomfactor_out g1 = zoomfactor_out g.
Proof.
  intros Hp. cbv zeta. cbn [handle zoomOut _button_released].
  unfold _button_mousescrollup. rewrite Hp.
  split; [reflexivity|]. split; [split; reflexivity|]. split; reflexivity.
Qed.

Lemma zoomlevel_after_zoom_ins (n : nat) :
  forall g : gui F,
    processing g = false ->
    processing (run g (rounds zoomIn n)) = false
    /\ curr_zoomlvl (run g (rounds zoomIn n)) = curr_zoomlvl g + Z.of_nat n.
Proof.
  induction n as [|n IH]; intros g Hp; cbn [rounds run].
  - split; [exact Hp | lia].
  - destruct (zoom_in_round_bookkeeping g Hp) as [Hp1 Hl1].
    destruct (IH _ Hp1) as [Hp2 Hl2].
    split; [exact Hp2|]. rewrite Hl2, Hl1. lia.
Qed.

Lemma zoomlevel_after_zoom_outs (m : nat) :
  forall g : gui F,
    processing g = false ->
    processing (run g (rounds zoomOut m)) = false
    /\ curr_zoomlvl (run g (rounds zoomOut m)) = curr_zoomlvl g - Z.of_nat m.
Proof.
  induction m as [|m IH]; intros g Hp; cbn [rounds run].
  - split; [exact Hp | lia].
  - destruct (zoom_out_round_bookkeeping g Hp) as [Hp1 Hl1].
    destruct (IH _ Hp1) as [Hp2 Hl2].
    split; [exact Hp2|]. rewrite Hl2, Hl1. lia.
Qed.

(** X11: the zoom level is a count, in every arithmetic: after [n] accepted
    zoom-ins and then [m] accepted zoom-outs, each accepted because the
    callback of the pass before it ran to its end, it is [n - m] above where
    it was. *)
Theorem zoomlevel_after_rounds :
  forall (g : gui F) (n m : nat),
    processing g = false ->
    curr_zoomlvl (run g (rounds zoomIn n ++ rounds zoomOut m))
    = curr_zoomlvl g + Z.of_nat n - Z.of_nat m.
Proof.
  intros g n m Hp. rewrite run_app.
  destruct (zoomlevel_after_zoom_ins n g Hp) as [Hp1 Hl1].
  destruct (zoomlevel_after_zoom_outs m _ Hp1) as [_ Hl2].
  rewrite Hl2, Hl1. lia.
Qed.

End Passes.

Section PassesOnDoubles.

Import MandelbrotGUI.

Set Warnings "-inexact-float".

Lemma pass_samples_current_viewport_witness :
  exists g0 : gui float,
    Main.gui = Some g0
    /\ exists n3 : MandelbrotOps.grid,
         GUIWorker.run (A := binary64)
           (fun x y => PrimFloat.sqrt (PrimFloat.add (PrimFloat.mul x x)
                                                     (PrimFloat.mul y y)))
           np_linspace (_calc_mandelbrot g0) = Some n3
         /\ List.length n3 = 750%nat.
Proof.
  eexists. split; [reflexivity|].
  match goal with
  | |- exists n3, GUIWorker.run ?h ?l (_calc_mandelbrot ?G) = _ /\ _ =>
      destruct (proj2 (@pass_samples_current_viewport float binary64 h l G
                         ltac:(cbn; lia) ltac:(cbn; lia)))
        as [n3 (Hrun & Hlen & _)]
  end.
  exists n3. split; [exact Hrun | exact Hlen].
Defined.

Lemma first_pass_does_not_block_witness :
  exists g0 : gui float,
    Main.gui = Some g0
    /\ started_by (_initgui g0) = [_calc_mandelbrot g0]
    /\ processing (state_of (_initgui g0)) = false
    /\ List.length (started_by (handle (state_of (_initgui g0)) zoomIn)) = 1%nat.
Proof.
  eexists. split; [reflexivity|].
  match goal with
  | |- started_by (_initgui ?G) = _ /\ _ =>
      destruct (@first_pass_does_not_block float binary64
                  (-2.0)%float 0.5%float (-1.25)%float 1.25%float 10 10 128 75
                  0.7%float G zoomIn eq_refl (or_introl eq_refl))
        as (H1 & H2 & H3 & _)
  end.
  split; [exact H1|]. split; [exact H2|]. rewrite H3. reflexivity.
Defined.

Lemma zoomlevel_after_rounds_witness :
  exists g0 : gui float,
    Main.gui = Some g0
    /\ curr_zoomlvl (run g0 (rounds zoomIn 3 ++ rounds zoomOut 1)) = 2.
Proof.
  eexists. split; [reflexivity|].
  match goal with
  | |- curr_zoomlvl (run ?G _) = _ =>
      exact (@zoomlevel_after_rounds float binary64 G 3 1 eq_refl)
  end.
Defined.

Set Warnings "+inexact-float".

End PassesOnDoubles.

(** * Further properties of the controller, in exact arithmetic *)

Section ZoomsExact.

Import MandelbrotGUI.

Local Open Scope R_scope.

(** A rectangle is its center and its half-extents. *)
Lemma currdata_from_center (g g' : gui R) :
  center_x g' = center_x g -> center_y g' = center_y g ->
  half_width g' = half_width g -> half_height g' = half_height g ->
  currdata g' = currdata g.
Proof.
  unfold center_x, center_y, half_width, half_height.
  destruct (currdata g') as [[[a' b'] c'] e'].
  destruct (currdata g) as [[[a b] c] e]. cbn.
  intros H1 H2 H3 H4.
  assert (a' = a) by lra. assert (b' = b) by lra.
  assert (c' = c) by lra. assert (e' = e) by lra.
  now subst.
Qed.

Lemma zoomed_not_inverted (g : gui R) (zf : R) :
  wh_fresh g ->
  item0 (currdata g) <= item2 (currdata g) ->
  item1 (currdata g) <= item3 (currdata g) ->
  0 <= zf ->
  item0 (zoomed g zf) <= item2 (zoomed g zf)
  /\ item1 (zoomed g zf) <= item3 (zoomed g zf).
Proof.
  intros Hf Hx Hy Hzf.
  destruct (zoomed_geometry g zf Hf Hx Hy) as (_ & _ & G3 & G4).
  assert (0 <= (item2 (currdata g) - item0 (currdata g)) / 2) by lra.
  assert (0 <= (item3 (currdata g) - item1 (currdata g)) / 2) by lra.
  split; nra.
Qed.

(** One zoom-in and the end of its pass. *)
Lemma zoom_in_round_exact (g : gui R) :
  idle_ordered g -> 0 <= zoomfactor_in g ->
  let g1 := state_of (handle (state_of (handle g zoomIn)) (WorkerDone [])) in
  idle_ordered g1
  /\ center_x g1 = center_x g /\ center_y g1 = center_y g
  /\ half_width g1 = half_width g * zoomfactor_in g
  /\ half_height g1 = half_height g * zoomfactor_in g
  /\ zoomfactor_in g1 = zoomfactor_in g /\ zoomfactor_out g1 = zoomfactor_out g.
Proof.
  intros (Hp & Hf & Hx & Hy) Hzf.
  destruct (zoom_in_round_bookkeeping g Hp) as [Hp1 _].
  destruct (zoom_in_round_viewport g Hp) as (Hd & Hf1 & Hzi & Hzo).
  cbv zeta in *.
  set (g1 := state_of (handle (state_of (handle g zoomIn)) (WorkerDone []))) in *.
  rewrite _apply_zoomin_currdata in Hd.
  destruct (zoomed_geometry g (zoomfactor_in g) Hf Hx Hy) as (G1 & G2 & G3 & G4).
  destruct (zoomed_not_inverted g (zoomfactor_in g) Hf Hx Hy Hzf) as [O1 O2].
  unfold idle_ordered, center_x, center_y, half_width, half_height.
  rewrite Hd.
  split; [split; [exact Hp1 | split; [exact Hf1 | split; [exact O1 | exact O2]]]|].
  split; [exact G1|]. split; [exact G2|]. split; [exact G3|]. split; [exact G4|].
  split; [exact Hzi | exact Hzo].
Qed.

(** One zoom-out and the end of its pass. *)
Lemma zoom_out_round_exact (g : gui R) :
  idle_ordered g -> 0 <= zoomfactor_out g ->
  let g1 := state_of (handle (state_of (handle g zoomOut)) (WorkerDone [])) in
  idle_ordered g1
  /\ center_x g1 = center_x g /\ center_y g1 = center_y g
  /\ half_width g1 = half_width g * zoomfactor_out g
  /\ half_height g1 = half_height g * zoomfactor_out g
  /\ zoomfactor_in g1 = zoomfactor_in g /\ zoomfactor_out g1 = zoomfactor_out g.
Proof.
  intros (Hp & Hf & Hx & Hy) Hzf.
  destruct (zoom_out_round_bookkeeping g Hp) as [Hp1 _].
  destruct (zoom_out_round_viewport g Hp) as (Hd & Hf1 & Hzi & Hzo).
  cbv zeta in *.
  set (g1 := state_of (handle (state_of (handle g zoomOut)) (WorkerDone []))) in *.
  rewrite _apply_zoomout_currdata in Hd.
  destruct (zoomed_geometry g (zoomfactor_out g) Hf Hx Hy) as (G1 & G2 & G3 & G4).
  destruct (zoomed_not_inverted g (zoomfactor_out g) Hf Hx Hy Hzf) as [O1 O2].
  unfold idle_ordered, center_x, center_y, half_width, half_height.
  rewrite Hd.
  split; [split; [exact Hp1 | split; [exact Hf1 | split; [exact O1 | exact O2]]]|].
  split; [exact G1|]. split; [exact G2|]. split; [exact G3|]. split; [exact G4|].
  split; [exact Hzi | exact Hzo].
Qed.

Lemma zoom_in_rounds_exact (n : nat) :
  forall g : gui R,
    idle_ordered g -> 0 <= zoomfactor_in g ->
    let g' := run g (rounds zoomIn n) in
    idle_ordered g'
    /\ center_x g' = center_x g /\ center_y g' = center_y g
    /\ half_width g' = half_width g * zoomfactor_in g ^ n
    /\ half_height g' = half_height g * zoomfactor_in g ^ n
    /\ zoomfactor_in g' = zoomfactor_in g /\ zoomfactor_out g' = zoomfactor_out g.
Proof.
  induction n as [|n IH]; intros g Hg Hzf; cbv zeta; cbn [rounds run].
  - repeat split; try apply Hg; cbn; lra.
  - destruct (zoom_in_round_exact g Hg Hzf) as (Hg1 & C1 & C2 & W1 & W2 & Z1 & Z2).
    cbv zeta in *.
    destruct (IH _ Hg1 ltac:(rewrite Z1; exact Hzf))
      as (Hg2 & D1 & D2 & V1 & V2 & Y1 & Y2).
    cbv zeta in *.
    split; [exact Hg2|].
    rewrite D1, D2, V1, V2, Y1, Y2, C1, C2, W1, W2, Z1, Z2.
    repeat split; cbn [pow]; ring.
Qed.

Lemma zoom_out_rounds_exact (n : nat) :
  forall g : gui R,
    idle_ordered g -> 0 <= zoomfactor_out g ->
    let g' := run g (rounds zoomOut n) in
    idle_ordered g'
    /\ center_x g' = center_x g /\ center_y g' = center_y g
    /\ half_width g' = half_width g * zoomfactor_out g ^ n
    /\ half_height g' = half_height g * zoomfactor_out g ^ n
    /\ zoomfactor_in g' = zoomfactor_in g /\ zoomfactor_out g' = zoomfactor_out g.
Proof.
  induction n as [|n IH]; intros g Hg Hzf; cbv zeta; cbn [rounds run].
  - repeat split; try apply Hg; cbn; lra.
  - destruct (zoom_out_round_exact g Hg Hzf) as (Hg1 & C1 & C2 & W1 & W2 & Z1 & Z2).
    cbv zeta in *.
    destruct (IH _ Hg1 ltac:(rewrite Z2; exact Hzf))
      as (Hg2 & D1 & D2 & V1 & V2 & Y1 & Y2).
    cbv zeta in *.
    split; [exact Hg2|].
    rewrite D1, D2, V1, V2, Y1, Y2, C1, C2, W1, W2, Z1, Z2.
    repeat split; cbn [pow]; ring.
Qed.

(** X12: an accepted zoom-out replaces the viewport by the rectangle around
    its own center whose half-width and half-height are the old ones times
    [zoomfactor_out], and takes the zoom level down by one, in every
    arithmetic; in exact arithmetic the center is the midpoint of the old
    and of the new rectangle and the half-extents are the old ones times the
    factor. *)
Theorem zoom_out_grows_around_center :
  (forall (F : Type) (A : Arith F) (g : gui F),
      processing g = false ->
      let half_w := div (cd_width g) (of_int 2) in
      let half_h := div (cd_height g) (of_int 2) in
      let cx := add (item0 (currdata g)) half_w in
      let cy := add (item1 (currdata g)) half_h in
      let zf := zoomfactor_out g in
      exists g',
        handle g zoomOut = Returned g' [_calc_mandelbrot g']
        /\ currdata g'
           = (sub cx (mul half_w zf), sub cy (mul half_h zf),
              add cx (mul half_w zf), add cy (mul half_h zf))
        /\ curr_zoomlvl g' = (curr_zoomlvl g - 1)%Z
        /\ wh_fresh g')
  /\ (forall g : gui R,
      idle_ordered g ->
      let g' := state_of (handle g zoomOut) in
      center_x g' = center_x g /\ center_y g' = center_y g
      /\ half_width g' = half_width g * zoomfactor_out g
      /\ half_height g' = half_height g * zoomfactor_out g).
Proof.
  split.
  - intros F A g Hp. cbv zeta.
    cbn [handle zoomOut _button_released].
    unfold _button_mousescrollup. rewrite Hp. cbn [negb].
    eexists. split; [reflexivity|]. split; [reflexivity|].
    split; [reflexivity|]. split; reflexivity.
  - intros g (Hp & Hf & Hx & Hy). cbv zeta.
    cbn [handle zoomOut _button_released].
    unfold _button_mousescrollup. rewrite Hp. cbn [negb state_of].
    exact (zoomed_geometry g (zoomfactor_out g) Hf Hx Hy).
Qed.

(** X13: in exact arithmetic, [n] accepted zoom-ins in a row, each followed
    by the end of its pass, keep the center of the viewport and multiply its
    half-width and half-height by [zoomfactor_in ^ n]. *)
Theorem zoom_in_rounds_closed_form_exact :
  forall (g : gui R) (n : nat),
    idle_ordered g -> 0 <= zoomfactor_in g ->
    let g' := run g (rounds zoomIn n) in
    center_x g' = center_x g /\ center_y g' = center_y g
    /\ half_width g' = half_width g * zoomfactor_in g ^ n
    /\ half_height g' = half_height g * zoomfactor_in g ^ n.
Proof.
  intros g n Hg Hzf. cbv zeta.
  destruct (zoom_in_rounds_exact n g Hg Hzf) as (_ & C1 & C2 & W1 & W2 & _).
  repeat split; assumption.
Qed.

(** X14: in exact arithmetic, with [zoomfactor_out = 1 / zoomfactor_in] and
    a zoom factor above [0], [n] zoom-ins followed by [n] zoom-outs (each
    with the end of its pass) give back the viewport and the zoom level they
    started from, and so do [n] zoom-outs followed by [n] zoom-ins. *)
Theorem zoom_rounds_undo_each_other_exact :
  forall (g : gui R) (n : nat),
    idle_ordered g ->
    0 < zoomfactor_in g ->
    zoomfactor_out g = 1 / zoomfactor_in g ->
    (currdata (run g (rounds zoomIn n ++ rounds zoomOut n)) = currdata g
     /\ curr_zoomlvl (run g (rounds zoomIn n ++ rounds zoomOut n)) = curr_zoomlvl g)
    /\ (currdata (run g (rounds zoomOut n ++ rounds zoomIn n)) = currdata g
        /\ curr_zoomlvl (run g (rounds zoomOut n ++ rounds zoomIn n))
           = curr_zoomlvl g).
Proof.
  intros g n Hg Hzf Hout.
  assert (Hzo : 0 <= zoomfactor_out g).
  { rewrite Hout. unfold Rdiv. rewrite Rmult_1_l.
    left. now apply Rinv_0_lt_compat. }
  assert (Hone : zoomfactor_in g ^ n * zoomfactor_out g ^ n = 1).
  { rewrite <- Rpow_mult_distr, Hout.
    replace (zoomfactor_in g * (1 / zoomfactor_in g)) with 1 by (field; lra).
    apply pow1. }
  assert (Hp : processing g = false) by apply Hg.
  split.
  - destruct (zoom_in_rounds_exact n g Hg ltac:(lra))
      as (Hg1 & C1 & C2 & W1 & W2 & Z1 & Z2). cbv zeta in *.
    destruct (zoom_out_rounds_exact n _ Hg1 ltac:(rewrite Z2; exact Hzo))
      as (_ & D1 & D2 & V1 & V2 & _). cbv zeta in *.
    rewrite run_app. split.
    + apply currdata_from_center.
      * now rewrite D1, C1.
      * now rewrite D2, C2.
      * rewrite V1, W1, Z2, Rmult_assoc, Hone. ring.
      * rewrite V2, W2, Z2, Rmult_assoc, Hone. ring.
    + destruct (zoomlevel_after_zoom_ins n g Hp) as [Hp1 Hl1].
      destruct (zoomlevel_after_zoom_outs n _ Hp1) as [_ Hl2].
      rewrite Hl2, Hl1. lia.
  - destruct (zoom_out_rounds_exact n g Hg Hzo)
      as (Hg1 & C1 & C2 & W1 & W2 & Z1 & Z2). cbv zeta in *.
    destruct (zoom_in_rounds_exact n _ Hg1 ltac:(rewrite Z1; lra))
      as (_ & D1 & D2 & V1 & V2 & _). cbv zeta in *.
    rewrite run_app. split.
    + apply currdata_from_center.
      * now rewrite D1, C1.
      * now rewrite D2, C2.
      * rewrite V1, W1, Z1, Rmult_assoc, (Rmult_comm (zoomfactor_out g ^ n)), Hone.
        ring.
      * rewrite V2, W2, Z1, Rmult_assoc, (Rmult_comm (zoomfactor_out g ^ n)), Hone.
        ring.
    + destruct (zoomlevel_after_zoom_outs n g Hp) as [Hp1 Hl1].
      destruct (zoomlevel_after_zoom_ins n _ Hp1) as [_ Hl2].
      rewrite Hl2, Hl1. lia.
Qed.

End ZoomsExact.

Section ZoomsExactWitnesses.

Import MandelbrotGUI.

Local Open Scope R_scope.

(** The object of [Main.py], in exact arithmetic. *)
Lemma main_gui_exact :
  exists g0 : gui R,
    __init__ (A := exact) (-2) (1/2) (-5/4) (5/4) 10 10 128 75 (7/10) = Some g0
    /\ idle_ordered g0
    /\ currdata g0 = (-2, -5/4, 1/2, 5/4)
    /\ zoomfactor_in g0 = 7/10
    /\ zoomfactor_out g0 = 1 / (7/10)
    /\ width g0 = 10%Z /\ height g0 = 10%Z /\ dpi g0 = 75%Z.
Proof.
  unfold __init__, truediv; cbn.
  rewrite Reqb_false by lra. eexists. split; [reflexivity|].
  split; [|repeat split].
  unfold idle_ordered. cbn. repeat split; lra.
Qed.

Lemma zoom_in_rounds_closed_form_exact_witness :
  exists g0 : gui R,
    __init__ (A := exact) (-2) (1/2) (-5/4) (5/4) 10 10 128 75 (7/10) = Some g0
    /\ half_width (run g0 (rounds zoomIn 3)) = half_width g0 * zoomfactor_in g0 ^ 3.
Proof.
  destruct main_gui_exact as [g0 (Hinit & Hidle & _ & Hzi & _)].
  exists g0. split; [exact Hinit|].
  apply (zoom_in_rounds_closed_form_exact g0 3 Hidle).
  rewrite Hzi. lra.
Defined.

Lemma zoom_rounds_undo_each_other_exact_witness :
  exists g0 : gui R,
    __init__ (A := exact) (-2) (1/2) (-5/4) (5/4) 10 10 128 75 (7/10) = Some g0
    /\ currdata (run g0 (rounds zoomIn 5 ++ rounds zoomOut 5)) = currdata g0.
Proof.
  destruct main_gui_exact as [g0 (Hinit & Hidle & _ & Hzi & Hzo & _)].
  exists g0. split; [exact Hinit|].
  apply (zoom_rounds_undo_each_other_exact g0 5 Hidle).
  - rewrite Hzi. lra.
  - now rewrite Hzo, Hzi.
Defined.

End ZoomsExactWitnesses.

Section ClicksExact.

Import MandelbrotGUI.

Local Open Scope R_scope.

Lemma tuple4_eq {B : Type} (a b c d a' b' c' d' : B) :
  a = a' -> b = b' -> c = c' -> d = d' -> (a, b, c, d) = (a', b', c', d').
Proof. now intros -> -> -> ->. Qed.

Lemma pixel_size_not_zero (n : Z) : n <> 0%Z -> Reqb (IZR n) 0 = false.
Proof. intros Hn. apply Reqb_false. now apply not_0_IZR. Qed.

(** [_transform_coords], for pixel sizes that are not zero. *)
Lemma _transform_coords_exact (g : gui R) (sx sy : R) :
  (width g * dpi g <> 0)%Z -> (height g * dpi g <> 0)%Z ->
  _transform_coords g (sx, sy)
  = Some ((sx - 0) / IZR (width g * dpi g) * cd_width g + item0 (currdata g),
          (sy - 0) / IZR (height g * dpi g) * cd_height g + item1 (currdata g)).
Proof.
  intros Hw Hh. unfold _transform_coords, truediv; cbn.
  now rewrite (pixel_size_not_zero _ Hw), (pixel_size_not_zero _ Hh).
Qed.

(** X15: in exact arithmetic [_transform_coords] maps the image onto the
    viewport, as its docstring has it: the pixel [(0, 0)] goes to
    [(xmin, ymin)], the pixel [(width * dpi, height * dpi)] to
    [(xmax, ymax)], and the middle of the image to the center of the
    viewport. *)
Theorem transform_maps_image_onto_viewport_exact :
  forall g : gui R,
    wh_fresh g ->
    item0 (currdata g) <= item2 (currdata g) ->
    item1 (currdata g) <= item3 (currdata g) ->
    (width g * dpi g <> 0)%Z -> (height g * dpi g <> 0)%Z ->
    _transform_coords g (0, 0) = Some (item0 (currdata g), item1 (currdata g))
    /\ _transform_coords g (IZR (width g * dpi g), IZR (height g * dpi g))
       = Some (item2 (currdata g), item3 (currdata g))
    /\ _transform_coords g (IZR (width g * dpi g) / 2, IZR (height g * dpi g) / 2)
       = Some (center_x g, center_y g).
Proof.
  intros g [Hcw Hch] Hx Hy Hw Hh.
  rewrite !(_transform_coords_exact g _ _ Hw Hh).
  rewrite Hcw, Hch, !Rabs_ordered by assumption.
  pose proof (not_0_IZR _ Hw) as Hw'. pose proof (not_0_IZR _ Hh) as Hh'.
  unfold center_x, center_y.
  split; [|split]; f_equal; f_equal; field; assumption.
Qed.

(** X16: in exact arithmetic an accepted click moves the viewport without
    resizing it: all four bounds shift by the offset of the clicked pixel
    from the middle of the image, scaled to the plane, and the stored width
    and height stay; a click on the middle of the image leaves the viewport
    where it is. *)
Theorem click_translates_viewport_exact :
  forall (g : gui R) (sx sy : R),
    idle_ordered g ->
    (width g * dpi g <> 0)%Z -> (height g * dpi g <> 0)%Z ->
    let g' := state_of (handle g (navigateTo (sx, sy))) in
    let dx := (sx / IZR (width g * dpi g) - 1 / 2)
              * (item2 (currdata g) - item0 (currdata g)) in
    let dy := (sy / IZR (height g * dpi g) - 1 / 2)
              * (item3 (currdata g) - item1 (currdata g)) in
    currdata g'
    = (item0 (currdata g) + dx, item1 (currdata g) + dy,
       item2 (currdata g) + dx, item3 (currdata g) + dy)
    /\ cd_width g' = cd_width g /\ cd_height g' = cd_height g
    /\ (sx = IZR (width g * dpi g) / 2 -> sy = IZR (height g * dpi g) / 2 ->
        currdata g' = currdata g).
Proof.
  intros g sx sy (Hp & [Hcw Hch] & Hx & Hy) Hw Hh. cbv zeta.
  cbn [handle navigateTo _button_released].
  unfold _button_mouse1_released. rewrite Hp. cbn [negb].
  pose proof (_transform_coords_exact (set_processing g true) sx sy Hw Hh) as Ht.
  rewrite Ht. cbn [state_of].
  pose proof (not_0_IZR _ Hw) as Hw'. pose proof (not_0_IZR _ Hh) as Hh'.
  rewrite Rabs_ordered in Hcw, Hch by assumption.
  destruct g as [x0 x1 y0 y1 w h mi d p lvl zi zo [[[a b] c] e] cw ch ms].
  cbn in *. subst cw ch. clear Ht.
  unfold _calc_new_coordinates_around; cbn.
  assert (Ha : 0 <= c - a) by lra. assert (Hb : 0 <= e - b) by lra.
  split; [|split; [|split]].
  - apply tuple4_eq; field; assumption.
  - match goal with |- Rabs ?x = _ => replace x with (- (c - a)) by ring end.
    rewrite Rabs_Ropp. now apply Rabs_pos_eq.
  - match goal with |- Rabs ?x = _ => replace x with (- (e - b)) by ring end.
    rewrite Rabs_Ropp. now apply Rabs_pos_eq.
  - intros -> ->. apply tuple4_eq; field; assumption.
Qed.

(** X17: the tick labels of the plot.  [_calc_mandelbrot_callback] and
    [mandelbrot_image] compute the same labels; in exact arithmetic the [x]
    label of a tick at pixel [t] is the plane coordinate the click transform
    gives that pixel, but the [y] label, divided by the image width too, is
    the plane coordinate of the pixel [t * height / width]: of the pixel [t]
    itself on a square image only. *)
Theorem tick_labels_exact :
  forall (g : gui R) (ticks : list Z) (k : nat),
    wh_fresh g ->
    item0 (currdata g) <= item2 (currdata g) ->
    item1 (currdata g) <= item3 (currdata g) ->
    (width g * dpi g <> 0)%Z -> (height g * dpi g <> 0)%Z ->
    (k < List.length ticks)%nat ->
    let t := IZR (nth k ticks 0%Z) in
    let x_label := nth k (fst (_callback_ticks g ticks)) 0 in
    let y_label := nth k (snd (_callback_ticks g ticks)) 0 in
    _callback_ticks g ticks
    = MandelbrotOps.mandelbrot_image_ticks
        (item0 (currdata g)) (item2 (currdata g))
        (item1 (currdata g)) (item3 (currdata g)) (width g) (dpi g) ticks
    /\ _transform_coords g (t, t * IZR (height g) / IZR (width g))
       = Some (x_label, y_label)
    /\ (width g = height g -> _transform_coords g (t, t) = Some (x_label, y_label)).
Proof.
  intros g ticks k [Hcw Hch] Hx Hy Hw Hh Hk. cbv zeta.
  split; [reflexivity|].
  assert (Hwz : width g <> 0%Z) by (intros E; apply Hw; rewrite E; reflexivity).
  assert (Hhz : height g <> 0%Z) by (intros E; apply Hh; rewrite E; reflexivity).
  assert (Hdz : dpi g <> 0%Z) by (intros E; apply Hw; rewrite E; lia).
  pose proof (not_0_IZR _ Hwz) as Hw'. pose proof (not_0_IZR _ Hhz) as Hh'.
  pose proof (not_0_IZR _ Hdz) as Hd'.
  assert (Hgen : _transform_coords g
                   (IZR (nth k ticks 0%Z),
                    IZR (nth k ticks 0%Z) * IZR (height g) / IZR (width g))
                 = Some (nth k (fst (_callback_ticks g ticks)) 0,
                         nth k (snd (_callback_ticks g ticks)) 0)).
  { rewrite (_transform_coords_exact g _ _ Hw Hh).
    unfold _callback_ticks. cbn [fst snd].
    rewrite (nth_indep _ 0
               (add (item0 (currdata g))
                    (div (mul (sub (item2 (currdata g)) (item0 (currdata g)))
                              (of_int 0%Z))
                         (of_int (dpi g * width g)%Z))))
      by (rewrite length_map; exact Hk).
    rewrite (nth_indep (map _ ticks) 0
               (add (item1 (currdata g))
                    (div (mul (sub (item3 (currdata g)) (item1 (currdata g)))
                              (of_int 0%Z))
                         (of_int (dpi g * width g)%Z))))
      by (rewrite length_map; exact Hk).
    rewrite (map_nth (fun t => add (item0 (currdata g))
                                  (div (mul (sub (item2 (currdata g))
                                                 (item0 (currdata g)))
                                            (of_int t))
                                       (of_int (dpi g * width g)%Z)))),
      (map_nth (fun t => add (item1 (currdata g))
                             (div (mul (sub (item3 (currdata g))
                                            (item1 (currdata g)))
                                       (of_int t))
                                  (of_int (dpi g * width g)%Z)))).
    cbn. rewrite Hcw, Hch, !Rabs_ordered by assumption.
    rewrite !mult_IZR.
    f_equal; f_equal; field; repeat split; assumption. }
  split; [exact Hgen|].
  intros Hsq. rewrite <- Hgen. rewrite <- Hsq.
  f_equal. f_equal. field. exact Hw'.
Qed.

End ClicksExact.

Section ClicksExactWitnesses.

Import MandelbrotGUI.

Local Open Scope R_scope.

Lemma main_gui_exact_pixels :
  exists g0 : gui R,
    __init__ (A := exact) (-2) (1/2) (-5/4) (5/4) 10 10 128 75 (7/10) = Some g0
    /\ idle_ordered g0
    /\ (width g0 * dpi g0 <> 0)%Z /\ (height g0 * dpi g0 <> 0)%Z
    /\ currdata g0 = (-2, -5/4, 1/2, 5/4).
Proof.
  destruct main_gui_exact as [g0 (Hinit & Hidle & Hd & _ & _ & Hw & Hh & Hdpi)].
  exists g0. rewrite Hw, Hh, Hdpi.
  split; [exact Hinit|]. split; [exact Hidle|].
  split; [lia|]. split; [lia | exact Hd].
Qed.

Lemma transform_maps_image_onto_viewport_exact_witness :
  exists g0 : gui R,
    __init__ (A := exact) (-2) (1/2) (-5/4) (5/4) 10 10 128 75 (7/10) = Some g0
    /\ _transform_coords g0 (0, 0) = Some (item0 (currdata g0), item1 (currdata g0)).
Proof.
  destruct main_gui_exact_pixels as [g0 (Hinit & (_ & Hf & Hx & Hy) & Hw & Hh & _)].
  exists g0. split; [exact Hinit|].
  apply (transform_maps_image_onto_viewport_exact g0 Hf Hx Hy Hw Hh).
Defined.

Lemma click_translates_viewport_exact_witness :
  exists g0 : gui R,
    __init__ (A := exact) (-2) (1/2) (-5/4) (5/4) 10 10 128 75 (7/10) = Some g0
    /\ cd_width (state_of (handle g0 (navigateTo (300, 375)))) = cd_width g0.
Proof.
  destruct main_gui_exact_pixels as [g0 (Hinit & Hidle & Hw & Hh & _)].
  exists g0. split; [exact Hinit|].
  apply (click_translates_viewport_exact g0 300 375 Hidle Hw Hh).
Defined.

Lemma tick_labels_exact_witness :
  exists g0 : gui R,
    __init__ (A := exact) (-2) (1/2) (-5/4) (5/4) 10 10 128 75 (7/10) = Some g0
    /\ _transform_coords g0 (IZR (nth 1 [0; 225; 450; 675]%Z 0%Z),
                             IZR (nth 1 [0; 225; 450; 675]%Z 0%Z))
       = Some (nth 1 (fst (_callback_ticks g0 [0; 225; 450; 675]%Z)) 0,
               nth 1 (snd (_callback_ticks g0 [0; 225; 450; 675]%Z)) 0).
Proof.
  destruct main_gui_exact as [g0 (Hinit & (_ & Hf & Hx & Hy) & _ & _ & _ & Hw & Hh & Hd)].
  exists g0. split; [exact Hinit|].
  apply (tick_labels_exact g0 [0; 225; 450; 675]%Z 1 Hf Hx Hy).
  - rewrite Hw, Hd. lia.
  - rewrite Hh, Hd. lia.
  - cbn. lia.
  - now rewrite Hw, Hh.
Defined.

End ClicksExactWitnesses.

(** * The translations *)

Section TranslationsTable.

Import Translations.

Lemma subscript_missing (d : list (string * string)) (key : string) :
  ~ In key (map fst d) -> subscript d key = None.
Proof.
  induction d as [|[k v] d IH]; intros Hnot; [reflexivity|].
  cbn [subscript]. destruct (String.eqb_spec k key) as [-> | Hne].
  - exfalso. apply Hnot. now left.
  - apply IH. intros Hin. apply Hnot. now right.
Qed.

(** X18: [get] returns the text of the table for each of its keys, whatever
    the default, and the default for every other key, without raising; no
    key is written twice in the table, and every key [gui.py] asks for is
    in it, so the GUI never shows a default. *)
Theorem get_returns_text_or_default :
  NoDup (map fst _translations)
  /\ (forall key text default,
         In (key, text) _translations -> get key default = text)
  /\ (forall key default,
         ~ In key (map fst _translations) -> get key default = default)
  /\ (forall key, In key gui_keys -> In key (map fst _translations)).
Proof.
  split; [|split; [|split]].
  - cbn. repeat constructor; cbn; intuition discriminate.
  - intros key text default Hin. cbn in Hin.
    repeat (destruct Hin as [Hin | Hin];
            [injection Hin as <- <-; reflexivity|]).
    contradiction.
  - intros key default Hnot. unfold get. now rewrite subscript_missing.
  - intros key Hin. cbn in Hin. cbn.
    repeat (destruct Hin as [<- | Hin]; [tauto|]). contradiction.
Qed.

End TranslationsTable.

(** * The sampler on a viewport that is symmetric about the real axis *)

Section SymmetricGrid.

Import MandelbrotOps.

Local Open Scope R_scope.

(** The reference model of [np.linspace] over [[-s, s]], from two samples
    on, is symmetric about [0]. *)
Lemma np_linspace_symmetric (s : R) (num : Z) (j : nat) :
  (2 <= num)%Z -> (j < Z.to_nat num)%nat ->
  nth (Z.to_nat num - 1 - j) (np_linspace (A := exact) (- s) s num) 0
  = - nth j (np_linspace (A := exact) (- s) s num) 0.
Proof.
  intros Hnum Hj.
  rewrite !np_linspace_exact_samples by lia.
  assert (Hd : IZR (num - 1) <> 0) by (apply not_0_IZR; lia).
  assert (Hn : INR (Z.to_nat num - 1 - j) = IZR (num - 1) - INR j).
  { rewrite minus_INR by lia. rewrite minus_INR by lia.
    rewrite INR_IZR_INZ, Z2Nat.id by lia. rewrite minus_IZR. cbn. ring. }
  rewrite Hn. field. exact Hd.
Qed.

(** X19: in exact arithmetic, when the [y] axis the sampler builds is
    symmetric about [0] (as [np.linspace(-s, s, H)] is), the grid is its own
    mirror image: the cells [(i, j)] and [(i, H - 1 - j)] are equal. *)
Theorem symmetric_axis_gives_mirrored_grid_exact :
  forall (linspace : R -> R -> Z -> list R)
         (xmin xmax ymin ymax : R) (W H maxiter : Z) (n3 : grid),
    (forall j, (j < Z.to_nat H)%nat ->
               nth (Z.to_nat H - 1 - j) (linspace ymin ymax H) 0
               = - nth j (linspace ymin ymax H) 0) ->
    mandelbrot_set (A := exact) Rhypot linspace xmin xmax ymin ymax W H maxiter
    = Some n3 ->
    forall i j, (i < Z.to_nat W)%nat -> (j < Z.to_nat H)%nat ->
                cell n3 i (Z.to_nat H - 1 - j) = cell n3 i j.
Proof.
  intros linspace xmin xmax ymin ymax W H maxiter n3 Hsym Hset i j Hi Hj.
  unfold mandelbrot_set in Hset.
  destruct ((W <? 0)%Z || (H <? 0)%Z); [discriminate|].
  cbv zeta in Hset. injection Hset as <-.
  unfold cell.
  rewrite !(nth_map_seq _ _ _ _ Hi).
  rewrite (nth_map_seq _ _ _ _ Hj).
  rewrite nth_map_seq by lia.
  cbn [of_int exact].
  rewrite (Hsym j Hj), !point_exact.
  apply (mandelbrot_conj (Complex (nth i (linspace xmin xmax W) 0)
                                  (nth j (linspace ymin ymax H) 0))).
Qed.

Lemma symmetric_axis_gives_mirrored_grid_exact_witness :
  exists n3 : grid,
    mandelbrot_set (A := exact) Rhypot np_linspace
      (-2) (1/2) (- (5/4)) (5/4) 4 3 50 = Some n3
    /\ cell n3 1 (Z.to_nat 3 - 1 - 0) = cell n3 1 0.
Proof.
  eexists. split; [reflexivity|].
  apply (symmetric_axis_gives_mirrored_grid_exact np_linspace
           (-2) (1/2) (- (5/4)) (5/4) 4 3 50).
  - intros j Hj. apply np_linspace_symmetric; [lia | exact Hj].
  - reflexivity.
  - cbn. lia.
  - cbn. lia.
Defined.

End SymmetricGrid.
